(** * BYTEzinho backend: a shallow embedding of [backend/app.py]

    The backend loads a knowledge file at startup, opens one chat session
    with a remote generative model, and serves three HTTP operations:
    a health check, lead capture ([POST /leads]) and chat ([POST /chat]).

    Python strings are sequences of Unicode code points; they are embedded
    as lists of code points.  The file system, the process environment, the
    log and the two module globals make up an explicit world that every
    function threads through a small state-and-exception monad. *)

From Stdlib Require Import ZArith NArith Lia Strings.String Strings.Ascii DecimalString.
From stdpp Require Import base option list gmap.

Local Open Scope N_scope.

(** ** Python [str] *)

Module Str.

(** A code point. *)
Definition char : Type := N.

(** A Python [str]. *)
Definition str : Type := list char.

Fixpoint bytes_of (s : string) : list N :=
  match s with
  | EmptyString => []
  | String a s' => N_of_ascii a :: bytes_of s'
  end.

(** Source literals are UTF-8 text; [utf8_decode] turns the bytes of a
    literal into its code points (1- to 4-byte sequences).  A truncated
    sequence ends the decoding. *)
Fixpoint utf8_decode (bs : list N) : str :=
  match bs with
  | [] => []
  | b :: rest =>
      if b <? 128 then b :: utf8_decode rest
      else if b <? 224 then
        match rest with
        | c1 :: rest1 => ((b - 192) * 64 + (c1 - 128)) :: utf8_decode rest1
        | _ => []
        end
      else if b <? 240 then
        match rest with
        | c1 :: c2 :: rest2 =>
            ((b - 224) * 4096 + (c1 - 128) * 64 + (c2 - 128)) :: utf8_decode rest2
        | _ => []
        end
      else
        match rest with
        | c1 :: c2 :: c3 :: rest3 =>
            ((b - 240) * 262144 + (c1 - 128) * 4096 + (c2 - 128) * 64 + (c3 - 128))
              :: utf8_decode rest3
        | _ => []
        end
  end.

(** The [str] denoted by a source literal. *)
Definition u (s : string) : str := utf8_decode (bytes_of s).

(** [not s]: the empty string is the only falsy string. *)
Definition falsy (s : str) : bool :=
  match s with [] => true | _ => false end.

(** [str.isspace] on one code point (CPython's [_PyUnicode_IsWhitespace]). *)
Definition isspace (c : char) : bool :=
  ((9 <=? c) && (c <=? 13)) || ((28 <=? c) && (c <=? 32))
  || (c =? 133) || (c =? 160) || (c =? 5760)
  || ((8192 <=? c) && (c <=? 8202))
  || (c =? 8232) || (c =? 8233) || (c =? 8239) || (c =? 8287) || (c =? 12288).

Fixpoint lstrip (s : str) : str :=
  match s with
  | [] => []
  | c :: s' => if isspace c then lstrip s' else s
  end.

(** [rstrip] keeps a character when it is not whitespace or when something
    is kept after it. *)
Fixpoint rstrip (s : str) : str :=
  match s with
  | [] => []
  | c :: s' =>
      match rstrip s' with
      | [] => if isspace c then [] else [c]
      | kept => c :: kept
      end
  end.

(** [s.strip()] *)
Definition strip (s : str) : str := rstrip (lstrip s).

(** Code points that UTF-8 cannot encode: the surrogates, and anything a
    [str] could not hold anyway. *)
Definition is_surrogate (c : char) : bool := (55296 <=? c) && (c <=? 57343).

Definition utf8_encodable (s : str) : bool :=
  forallb (fun c => negb (is_surrogate c)) s.

End Str.
Import Str.

(** ** Exceptions and results *)

(** An instance of Python's [Exception], which is what the handlers'
    [except Exception] clauses catch.  [HTTPException] is FastAPI's; every
    other class is kept by its name together with [str(e)], the text an
    f-string shows. *)
Inductive Exception : Type :=
| HTTPException (status_code : Z) (detail : str)
| PyError (cls : string) (message : str).

Definition decimal (z : Z) : str :=
  u (DecimalString.NilZero.string_of_int (Z.to_int z)).

(** [str(e)] *)
Definition exc_str (e : Exception) : str :=
  match e with
  | HTTPException status_code detail => decimal status_code ++ u ": " ++ detail
  | PyError _ message => message
  end.

(** [isinstance(e, cls)] for a built-in class without subclasses. *)
Definition isinstance (e : Exception) (name : string) : bool :=
  match e with
  | HTTPException _ _ => String.eqb name "HTTPException"
  | PyError cls _ => String.eqb cls name
  end.

Inductive result (A : Type) : Type :=
| Ok (a : A)
| Raise (e : Exception).
Arguments Ok {A} a.
Arguments Raise {A} e.

(** [repr] of a string made of printable characters other than the quote
    and the backslash, which covers the two paths and the two field names
    the program uses. *)
Definition repr (s : str) : str := u "'" ++ s ++ u "'".

(** ** [str.format] with keyword arguments

    The fragment of [str.format] that [PROMPT_TEMPLATE] exercises: literal
    text, the escapes [{{] and [}}], and replacement fields [{name}] looked
    up among the keyword arguments.  A field with a conversion, a format
    specification, an attribute or an index is outside the fragment. *)

Module Format.

Inductive outcome : Type :=
| Formatted (s : str)
| Failed (e : Exception)
| Unsupported.

Definition lbrace : char := 123.
Definition rbrace : char := 125.

(** Characters that start a conversion, a format specification, an
    attribute access or an index inside a field. *)
Definition is_field_operator (c : char) : bool :=
  (c =? 33) || (c =? 58) || (c =? 46) || (c =? 91).

Definition is_digit (c : char) : bool := (48 <=? c) && (c <=? 57).

Fixpoint get (kwargs : list (str * str)) (key : str) : option str :=
  match kwargs with
  | [] => None
  | (k, v) :: rest => if decide (k = key) then Some v else get rest key
  end.

(** The number a field name made of ASCII digits stands for. *)
Definition get_integer (name : str) : Z :=
  fold_left (fun acc c => acc * 10 + Z.of_N (c - 48))%Z name 0%Z.

Definition PY_SSIZE_T_MAX : Z := 9223372036854775807.

(** The object a field name refers to when only keyword arguments are
    passed: an empty or numeric name is positional and finds nothing. *)
Definition get_field_object (kwargs : list (str * str)) (name : str) : result str :=
  if forallb is_digit name then
    if (PY_SSIZE_T_MAX <? get_integer name)%Z then
      Raise (PyError "ValueError" (u "Too many decimal digits in format string"))
    else
      Raise (PyError "IndexError"
               (u "Replacement index " ++ decimal (get_integer name)
                  ++ u " out of range for positional args tuple"))
  else
    match get kwargs name with
    | Some v => Ok v
    | None => Raise (PyError "KeyError" (repr name))
    end.

(** Prepend already formatted text to the rest of the output. *)
Definition emit (text : str) (rest : outcome) : outcome :=
  match rest with
  | Formatted s => Formatted (text ++ s)
  | other => other
  end.

(** The scanner is either in literal text or inside a replacement field,
    whose name so far is kept in reverse. *)
Inductive mode : Type :=
| Literal
| Field (name_rev : str).

Fixpoint scan (kwargs : list (str * str)) (m : mode) (s : str) : outcome :=
  match m, s with
  | Literal, [] => Formatted []
  | Literal, c :: s' =>
      if c =? lbrace then
        match s' with
        | [] => Failed (PyError "ValueError" (u "Single '{' encountered in format string"))
        | c' :: s'' =>
            if c' =? lbrace then emit [lbrace] (scan kwargs Literal s'')
            else scan kwargs (Field []) s'
        end
      else if c =? rbrace then
        match s' with
        | [] => Failed (PyError "ValueError" (u "Single '}' encountered in format string"))
        | c' :: s'' =>
            if c' =? rbrace then emit [rbrace] (scan kwargs Literal s'')
            else Failed (PyError "ValueError" (u "Single '}' encountered in format string"))
        end
      else emit [c] (scan kwargs Literal s')
  | Field _, [] =>
      Failed (PyError "ValueError" (u "expected '}' before end of string"))
  | Field name_rev, c :: s' =>
      if c =? rbrace then
        match get_field_object kwargs (rev name_rev) with
        | Ok value => emit value (scan kwargs Literal s')
        | Raise e => Failed e
        end
      else if c =? lbrace then
        Failed (PyError "ValueError" (u "unexpected '{' in field name"))
      else if is_field_operator c then Unsupported
      else scan kwargs (Field (c :: name_rev)) s'
  end.

(** [template.format] applied to keyword arguments only. *)
Definition format (template : str) (kwargs : list (str * str)) : outcome :=
  scan kwargs Literal template.

End Format.

(** ** Constants of the module *)

Definition KNOWLEDGE_BASE_FILE : str := u "dados.txt".

Definition GEMINI_MODEL_NAME : str := u "gemini-1.0-pro".

Definition LF : str := [10].

Definition PROMPT_TEMPLATE : str :=
  LF ++ u "Use o conteúdo abaixo como base para responder a pergunta de forma direta, sem inventar nada que não esteja no texto."
  ++ LF ++ LF ++ u "=== BASE DE CONHECIMENTO ==="
  ++ LF ++ u "{base_conhecimento}"
  ++ LF ++ LF ++ u "=== PERGUNTA ==="
  ++ LF ++ u "{pergunta_usuario}"
  ++ LF ++ LF ++ u "Responda com base apenas no conteúdo da base acima."
  ++ LF.

(** The prompt [responder_com_gemini] builds on its first line. *)
Definition compose_prompt (base_conhecimento pergunta_usuario : str) : Format.outcome :=
  Format.format PROMPT_TEMPLATE
    [(u "base_conhecimento", base_conhecimento);
     (u "pergunta_usuario", pergunta_usuario)].

(** The three fixed pieces of the template around the two fields. *)
Definition PROMPT_HEAD : str :=
  LF ++ u "Use o conteúdo abaixo como base para responder a pergunta de forma direta, sem inventar nada que não esteja no texto."
  ++ LF ++ LF ++ u "=== BASE DE CONHECIMENTO ===" ++ LF.

Definition PROMPT_MIDDLE : str :=
  LF ++ LF ++ u "=== PERGUNTA ===" ++ LF.

Definition PROMPT_TAIL : str :=
  LF ++ LF ++ u "Responda com base apenas no conteúdo da base acima." ++ LF.

(** ** The world the process runs in *)

(** Why no file can be created at a path where there is none. *)
Inductive obstacle : Type :=
| ReadOnlyDirectory
| DiskFull.

(** What is found at a path.  A path the map of files does not hold has no
    file, in a directory that lets one be created.
    - [Regular]: a text file, valid UTF-8 with LF line ends, which reads as
      [content]; this is what the server itself writes.
    - [Directory].
    - [ReadOnly]: a file the server may read but not write, given by its
      bytes, which need not be UTF-8.
    - [Missing]: no file, and none can be created. *)
Inductive node : Type :=
| Regular (readable writable : bool) (content : str)
| Directory
| ReadOnly (data : list N)
| Missing (why : obstacle).

Inductive levelname : Type := INFO | WARNING | ERROR.

(** One line of the log: its level and its message. *)
Definition LogRecord : Type := levelname * str.

(** What a call of [send_message] hands back; reading [.text] may raise. *)
Record GenerateContentResponse : Type := mkResponse {
  text : result str
}.

(** The remote chat session, as the backend sees it: an object with one
    operation.  [remote] stands for the generative service (it answers a
    prompt knowing the prompts sent before) and [sent] records every prompt
    submitted through the session, oldest first. *)
Record ChatSession : Type := mkSession {
  remote : list str -> str -> result GenerateContentResponse;
  sent : list str
}.

Record World : Type := mkWorld {
  files : gmap str node;
  environ : gmap str str;
  records : list LogRecord;
  (* the two module globals *)
  base_conhecimento : option str;
  chat_session : option ChatSession
}.

Definition set_files (f : gmap str node) (w : World) : World :=
  mkWorld f (environ w) (records w) (base_conhecimento w) (chat_session w).

Definition set_records (r : list LogRecord) (w : World) : World :=
  mkWorld (files w) (environ w) r (base_conhecimento w) (chat_session w).

Definition set_base_conhecimento (b : option str) (w : World) : World :=
  mkWorld (files w) (environ w) (records w) b (chat_session w).

Definition set_chat_session (c : option ChatSession) (w : World) : World :=
  mkWorld (files w) (environ w) (records w) (base_conhecimento w) c.

(** ** A state-and-exception monad over the world *)

Definition M (A : Type) : Type := World -> result A * World.

Definition ret {A} (a : A) : M A := fun w => (Ok a, w).

Definition raise {A} (e : Exception) : M A := fun w => (Raise e, w).

Definition bind {A B} (m : M A) (k : A -> M B) : M B :=
  fun w =>
    match m w with
    | (Ok a, w') => k a w'
    | (Raise e, w') => (Raise e, w')
    end.

#[export] Instance M_ret : MRet M := @ret.
#[export] Instance M_bind : MBind M := fun A B k m => bind m k.

(** [try: body  except ...: handler].  The handler answers [None] for an
    exception its clause does not match, which then propagates. *)
Definition try_except {A} (body : M A) (handler : Exception -> option (M A)) : M A :=
  fun w =>
    match body w with
    | (Ok a, w') => (Ok a, w')
    | (Raise e, w') =>
        match handler e with
        | Some h => h w'
        | None => (Raise e, w')
        end
    end.

Definition lift {A} (r : result A) : M A := fun w => (r, w).

Definition read {A} (field : World -> A) : M A := fun w => (Ok (field w), w).

Definition modify (f : World -> World) : M unit := fun w => (Ok tt, f w).

(** ** Logging, the environment and files *)

(** The world once a record has been written to the log. *)
Definition logged (level : levelname) (msg : str) (w : World) : World :=
  set_records (records w ++ [(level, msg)]) w.

Definition logging (level : levelname) (msg : str) : M unit :=
  modify (logged level msg).

(** [os.getenv] *)
Definition getenv (key : str) : M (option str) :=
  read (fun w => environ w !! key).

Definition os_error (cls : string) (errno : Z) (strerror : string) (filename : str) : Exception :=
  PyError cls (u "[Errno " ++ decimal errno ++ u "] " ++ u strerror ++ u ": " ++ repr filename).

Definition hex_digit (n : N) : char := if n <? 10 then 48 + n else 87 + n.

(** Strict UTF-8 decoding, as the [utf-8] codec does it: the text, or the
    first error with the byte it starts at, the range of bytes it covers
    (end excluded) and its reason. *)
Inductive decoding : Type :=
| Decoded (s : str)
| Undecodable (byte : N) (start stop : Z) (reason : string).

Definition is_continuation (b : N) : bool := (128 <=? b) && (b <? 192).

Definition decoded_then (c : char) (rest : decoding) : decoding :=
  match rest with
  | Decoded s => Decoded (c :: s)
  | failure => failure
  end.

Fixpoint utf8_strict (bs : list N) (pos : Z) : decoding :=
  match bs with
  | [] => Decoded []
  | b :: rest =>
      if b <? 128 then decoded_then b (utf8_strict rest (pos + 1))
      else if b <? 194 then Undecodable b pos (pos + 1) "invalid start byte"
      else if b <? 224 then
        match rest with
        | [] => Undecodable b pos (pos + 1) "unexpected end of data"
        | b2 :: rest2 =>
            if is_continuation b2 then
              decoded_then ((b - 192) * 64 + (b2 - 128)) (utf8_strict rest2 (pos + 2))
            else Undecodable b pos (pos + 1) "invalid continuation byte"
        end
      else if b <? 240 then
        match rest with
        | [] => Undecodable b pos (pos + 1) "unexpected end of data"
        | b2 :: rest2 =>
            if negb (is_continuation b2) || (if b2 <? 160 then b =? 224 else b =? 237) then
              Undecodable b pos (pos + 1) "invalid continuation byte"
            else
              match rest2 with
              | [] => Undecodable b pos (pos + 2) "unexpected end of data"
              | b3 :: rest3 =>
                  if is_continuation b3 then
                    decoded_then ((b - 224) * 4096 + (b2 - 128) * 64 + (b3 - 128))
                      (utf8_strict rest3 (pos + 3))
                  else Undecodable b pos (pos + 2) "invalid continuation byte"
              end
        end
      else if b <? 245 then
        match rest with
        | [] => Undecodable b pos (pos + 1) "unexpected end of data"
        | b2 :: rest2 =>
            if negb (is_continuation b2) || (if b2 <? 144 then b =? 240 else b =? 244) then
              Undecodable b pos (pos + 1) "invalid continuation byte"
            else
              match rest2 with
              | [] => Undecodable b pos (pos + 2) "unexpected end of data"
              | b3 :: rest3 =>
                  if negb (is_continuation b3) then
                    Undecodable b pos (pos + 2) "invalid continuation byte"
                  else
                    match rest3 with
                    | [] => Undecodable b pos (pos + 3) "unexpected end of data"
                    | b4 :: rest4 =>
                        if is_continuation b4 then
                          decoded_then
                            ((b - 240) * 262144 + (b2 - 128) * 4096 + (b3 - 128) * 64
                             + (b4 - 128))
                            (utf8_strict rest4 (pos + 4))
                        else Undecodable b pos (pos + 3) "invalid continuation byte"
                    end
              end
        end
      else Undecodable b pos (pos + 1) "invalid start byte"
  end.

Definition UnicodeDecodeError (byte : N) (start stop : Z) (reason : string) : Exception :=
  PyError "UnicodeDecodeError"
    (if (stop =? start + 1)%Z then
       u "'utf-8' codec can't decode byte 0x" ++ [hex_digit (byte / 16 mod 16); hex_digit (byte mod 16)]
         ++ u " in position " ++ decimal start ++ u ": " ++ u reason
     else
       u "'utf-8' codec can't decode bytes in position " ++ decimal start ++ u "-"
         ++ decimal (stop - 1)%Z ++ u ": " ++ u reason).

(** Reading in text mode with the default [newline]: CR LF and a lone CR
    both come out as LF. *)
Fixpoint universal_newlines (s : str) : str :=
  match s with
  | [] => []
  | c :: s' =>
      if c =? 13 then
        match s' with
        | c' :: s'' => if c' =? 10 then 10 :: universal_newlines s''
                       else 10 :: universal_newlines s'
        | [] => [10]
        end
      else c :: universal_newlines s'
  end.

(** [with open(caminho, "r", encoding="utf-8") as f: f.read()] *)
Definition open_read (caminho : str) : M str :=
  fun w =>
    match files w !! caminho with
    | None | Some (Missing _) =>
        (Raise (os_error "FileNotFoundError" 2 "No such file or directory" caminho), w)
    | Some Directory =>
        (Raise (os_error "IsADirectoryError" 21 "Is a directory" caminho), w)
    | Some (Regular readable _ content) =>
        if readable then (Ok content, w)
        else (Raise (os_error "PermissionError" 13 "Permission denied" caminho), w)
    | Some (ReadOnly data) =>
        match utf8_strict data 0 with
        | Decoded s => (Ok (universal_newlines s), w)
        | Undecodable byte start stop reason =>
            (Raise (UnicodeDecodeError byte start stop reason), w)
        end
    end.

(** Four lower-case hexadecimal digits, as in the escape of a surrogate. *)
Definition hex4 (c : char) : str :=
  [hex_digit (c / 4096 mod 16); hex_digit (c / 256 mod 16);
   hex_digit (c / 16 mod 16); hex_digit (c mod 16)].

(** How many surrogates [s] starts with. *)
Fixpoint surrogate_run (s : str) : Z :=
  match s with
  | [] => 0
  | c :: s' => if is_surrogate c then (1 + surrogate_run s')%Z else 0%Z
  end.

(** Where the first run of surrogates starts, its first character and its
    length. *)
Fixpoint first_surrogates (s : str) (pos : Z) : option (Z * char * Z) :=
  match s with
  | [] => None
  | c :: s' =>
      if is_surrogate c then Some (pos, c, surrogate_run s)
      else first_surrogates s' (pos + 1)%Z
  end.

Definition UnicodeEncodeError (s : str) : Exception :=
  PyError "UnicodeEncodeError"
    (match first_surrogates s 0%Z with
     | Some (start, c, run) =>
         if (run =? 1)%Z then
           u "'utf-8' codec can't encode character '\ud" ++ drop 1 (hex4 c)
             ++ u "' in position " ++ decimal start ++ u ": surrogates not allowed"
         else
           u "'utf-8' codec can't encode characters in position " ++ decimal start
             ++ u "-" ++ decimal (start + run - 1)%Z ++ u ": surrogates not allowed"
     | None => []
     end).

(** [open(caminho, "a", encoding="utf-8")] on the entry found at the path:
    the permission and the text the opened file starts with.  A missing
    file is created empty where the directory and the disk allow it. *)
Definition opened_for_append (caminho : str) (entry : option node) : result (bool * str) :=
  match entry with
  | None => Ok (true, [])
  | Some Directory => Raise (os_error "IsADirectoryError" 21 "Is a directory" caminho)
  | Some (Regular readable writable content) =>
      if writable then Ok (readable, content)
      else Raise (os_error "PermissionError" 13 "Permission denied" caminho)
  | Some (ReadOnly _) | Some (Missing ReadOnlyDirectory) =>
      Raise (os_error "PermissionError" 13 "Permission denied" caminho)
  | Some (Missing DiskFull) =>
      Raise (os_error "OSError" 28 "No space left on device" caminho)
  end.

(** [with open(caminho, "a", encoding="utf-8") as f: f.write(s)].  The text
    is encoded when it is written, so a string UTF-8 cannot encode raises
    after the file has been opened (and created) and before anything is
    added to it. *)
Definition append_text (caminho s : str) : M unit :=
  fun w =>
    match opened_for_append caminho (files w !! caminho) with
    | Raise e => (Raise e, w)
    | Ok (readable, content) =>
        if utf8_encodable s then
          (Ok tt, set_files (<[caminho := Regular readable true (content ++ s)]> (files w)) w)
        else
          (Raise (UnicodeEncodeError s),
           set_files (<[caminho := Regular readable true content]> (files w)) w)
    end.

(** ** The chatbot functions *)

Definition carregar_conhecimento (caminho : str) : M (option str) :=
  try_except
    (content ← open_read caminho;
     ret (Some content))
    (fun e =>
       if isinstance e "FileNotFoundError" then
         Some (logging ERROR
                    (u "❌ ERRO: Arquivo da base de conhecimento não encontrado em '"
                     ++ caminho ++ u "'.");;
             ret None)
       else None).

(** The session object after [prompt] went through it. *)
Definition after_call (chat : ChatSession) (prompt : str) : ChatSession :=
  mkSession (remote chat) (sent chat ++ [prompt]).

(** [chat.send_message(prompt)]: the session object records the prompt; it
    is the object the global [chat_session] refers to, so its new state is
    stored there. *)
Definition send_message (chat : ChatSession) (prompt : str) : M GenerateContentResponse :=
  fun w =>
    (remote chat (sent chat) prompt,
     set_chat_session (Some (after_call chat prompt)) w).

Definition format_prompt (base pergunta_usuario : str) : M str :=
  match compose_prompt base pergunta_usuario with
  | Format.Formatted prompt => ret prompt
  | Format.Failed e => raise e
  | Format.Unsupported =>
      raise (PyError "NotImplementedError" (u "replacement field outside the modelled fragment"))
  end.

(** What the remote call yields for a prompt: the text of the reply, or the
    exception raised by [send_message] or by reading [.text]. *)
Definition downstream (chat : ChatSession) (prompt : str) : result str :=
  match remote chat (sent chat) prompt with
  | Ok resposta => text resposta
  | Raise e => Raise e
  end.

Definition responder_com_gemini (chat : ChatSession) (base pergunta_usuario : str) : M str :=
  prompt ← format_prompt base pergunta_usuario;
  resposta ← send_message chat prompt;
  t ← lift (text resposta);
  ret (strip t).

(** ** Values exchanged over HTTP *)

(** A JSON value as the handlers see it once parsed (a Python [dict] for an
    object, with its keys in order).  No handler looks inside a number. *)
#[warning="-register-all"] Inductive json : Type :=
| JNull
| JBool (b : bool)
| JNumber (n : Z)
| JString (s : str)
| JArray (items : list json)
| JObject (members : list (str * json)).

Fixpoint member (key : str) (members : list (str * json)) : option json :=
  match members with
  | [] => None
  | (k, v) :: rest => if decide (k = key) then Some v else member key rest
  end.

(** The two request models. *)
Record ChatRequest : Type := mkChatRequest {
  message : str
}.

Record Lead : Type := mkLead {
  name : str;
  email : str
}.

(** What the server sends back: a JSON reply with its status, the
    validation layer's 422 with the fields it refused, the server's own 500
    when a handler lets an exception through, or the server's own 500 when
    the reply that was due could not be encoded (a [UnicodeEncodeError]
    raised while the body is rendered). *)
Inductive http_reply : Type :=
| Reply (status : Z) (body : json)
| Unprocessable (loc : list str)
| Uncaught (e : Exception)
| Unencodable.

Definition status_of (r : http_reply) : Z :=
  match r with
  | Reply status _ => status
  | Unprocessable _ => 422
  | Uncaught _ => 500
  | Unencodable => 500
  end.

(** A body is sent as UTF-8 text, which every string and key in it must
    allow: a lone surrogate anywhere in it makes the encoding fail. *)
Fixpoint json_encodable (j : json) : bool :=
  match j with
  | JString s => utf8_encodable s
  | JArray items => forallb json_encodable items
  | JObject members =>
      forallb (fun '(k, v) => utf8_encodable k && json_encodable v) members
  | _ => true
  end.

(** [JSONResponse(content, status_code)] once rendered. *)
Definition render (status : Z) (body : json) : http_reply :=
  if json_encodable body then Reply status body else Unencodable.

(** How FastAPI answers for a handler: its return value is the body of a
    200, an [HTTPException] becomes its status with the detail as body. *)
Definition respond (r : result json) : http_reply :=
  match r with
  | Ok body => render 200 body
  | Raise (HTTPException status_code detail) =>
      render status_code (JObject [(u "detail", JString detail)])
  | Raise e => Uncaught e
  end.

(** The answer to a body validation refused: a 422 that names the refused
    fields and echoes, for each, the input that was refused. *)
Definition refuse (loc : list str) (echoed : list json) : http_reply :=
  if forallb json_encodable echoed then Unprocessable loc else Unencodable.

Section Backend.

(** The generative-AI client library: configuring it with an API key and
    starting a chat on a model either yields a session or raises. *)
Variable genai_start_chat : forall (api_key model_name : str), result ChatSession.

(** The e-mail grammar behind [EmailStr]: the normalised address, or
    nothing when the text is not an address. *)
Variable validate_email : str -> option str.

Definition iniciar_gemini : M (option ChatSession) :=
  api_key ← getenv (u "GEMINI_API_KEY");
  match api_key with
  | None | Some [] =>
      logging ERROR
        (u "❌ ERRO: API KEY da Gemini não encontrada. Verifique suas variáveis de ambiente.");;
      ret None
  | Some api_key =>
      try_except
        (chat ← lift (genai_start_chat api_key GEMINI_MODEL_NAME);
         ret (Some chat))
        (fun e =>
           Some (logging ERROR (u "❌ ERRO: Falha ao iniciar o modelo Gemini: " ++ exc_str e);;
                 ret None))
  end.

(** The two globals when [not chat_session or not base_conhecimento] is
    false: a session object is truthy, [None] and the empty string are not. *)
Definition available (w : World) : option (ChatSession * str) :=
  match chat_session w, base_conhecimento w with
  | Some chat, Some base => if falsy base then None else Some (chat, base)
  | _, _ => None
  end.

Definition startup_event : M unit :=
  logging INFO (u "Iniciando o chatbot...");;
  base ← carregar_conhecimento KNOWLEDGE_BASE_FILE;
  modify (set_base_conhecimento base);;
  chat ← iniciar_gemini;
  modify (set_chat_session chat);;
  ready ← read available;
  match ready with
  | None =>
      logging WARNING
        (u "[AVISO] O chatbot está rodando em modo degradado. Verifique a API Key e o arquivo de dados.")
  | Some _ => logging INFO (u "✅ Chatbot Gemini inicializado com sucesso!")
  end.

(** *** Handlers *)

Definition read_root : M json :=
  ret (JObject [(u "status", JString (u "API do Chatbot está funcionando!"))]).

Definition LEADS_FILE : str := u "leads.txt".

(** The line a lead is stored as, with its newline. *)
Definition lead_line (lead : Lead) : str :=
  u "Nome: " ++ name lead ++ u ", Email: " ++ email lead ++ LF.

Definition LEAD_STORED : json :=
  JObject [(u "status", JString (u "success"));
           (u "message", JString (u "Lead recebido com sucesso!"))].

Definition capturar_lead (lead : Lead) : M json :=
  logging INFO
    (u "✅ Novo lead recebido: Nome='" ++ name lead ++ u "', Email='" ++ email lead ++ u "'");;
  try_except
    (append_text LEADS_FILE (lead_line lead);;
     ret LEAD_STORED)
    (fun e =>
       Some (logging ERROR (u "❌ ERRO ao salvar lead: " ++ exc_str e);;
             raise (HTTPException 500 (u "Falha ao salvar o lead."))))%Z.

Definition UNAVAILABLE : str := u "Desculpe, o chatbot não está disponível no momento.".
Definition EMPTY_MESSAGE : str := u "A mensagem não pode ser vazia.".
Definition PROCESSING_ERROR : str := u "Ocorreu um erro ao processar sua mensagem.".

Definition chat (chat_request : ChatRequest) : M json :=
  ready ← read available;
  match ready with
  | None => raise (HTTPException 503 UNAVAILABLE)
  | Some (session, base) =>
      let user_message := message chat_request in
      if falsy user_message then raise (HTTPException 400 EMPTY_MESSAGE)
      else
        try_except
          (bot_response ← responder_com_gemini session base user_message;
           ret (JObject [(u "response", JString bot_response)]))
          (fun e =>
             Some (logging ERROR (u "Erro ao gerar resposta do Gemini: " ++ exc_str e);;
                   raise (HTTPException 500 PROCESSING_ERROR)))
  end%Z.

(** *** Validation of request bodies

    FastAPI validates the body against the handler's model before it calls
    the handler.  A [str] field takes a JSON string as it is and nothing
    else; an [EmailStr] field takes a JSON string the e-mail grammar
    accepts and keeps its normalised form; other members are ignored.  A
    refusal is answered with a 422 that echoes the refused input. *)

Definition str_field (key : str) (members : list (str * json)) : option str :=
  match member key members with
  | Some (JString s) => Some s
  | _ => None
  end.

Definition email_field (key : str) (members : list (str * json)) : option str :=
  match str_field key members with
  | Some s => validate_email s
  | None => None
  end.

(** The input a refusal echoes for a field: the member's value when the
    body has the member, the whole body when the member is missing. *)
Definition echo (key : str) (body : json) (members : list (str * json)) : json :=
  match member key members with
  | Some v => v
  | None => body
  end.

(** The model, or the names of the fields that were refused (none when the
    body is not an object at all) with the inputs echoed for them. *)
Definition validate_ChatRequest (body : json) : ChatRequest + (list str * list json) :=
  match body with
  | JObject members =>
      match str_field (u "message") members with
      | Some m => inl (mkChatRequest m)
      | None => inr ([u "message"], [echo (u "message") body members])
      end
  | _ => inr ([], [body])
  end.

Definition validate_Lead (body : json) : Lead + (list str * list json) :=
  match body with
  | JObject members =>
      match str_field (u "name") members, email_field (u "email") members with
      | Some n, Some e => inl (mkLead n e)
      | None, Some _ => inr ([u "name"], [echo (u "name") body members])
      | Some _, None => inr ([u "email"], [echo (u "email") body members])
      | None, None =>
          inr ([u "name"; u "email"],
               [echo (u "name") body members; echo (u "email") body members])
      end
  | _ => inr ([], [body])
  end.

(** *** Routes *)

Definition GET_root (w : World) : http_reply * World :=
  let (r, w') := read_root w in (respond r, w').


Definition POST_chat (body : json) (w : World) : http_reply * World :=
  match validate_ChatRequest body with
  | inr (loc, echoed) => (refuse loc echoed, w)
  | inl chat_request => let (r, w') := chat chat_request w in (respond r, w')
  end.

End Backend.

(** ** Vocabulary for the statements *)

(** The text of the file at a path; empty when there is no text file
    there. *)
Definition file_text (w : World) (caminho : str) : str :=
  match files w !! caminho with
  | Some (Regular _ _ content) => content
  | _ => []
  end.


(** The prompt a request is answered from, given the knowledge. *)
Definition prompt_for (base : str) (req : ChatRequest) : str :=
  PROMPT_HEAD ++ base ++ PROMPT_MIDDLE ++ message req ++ PROMPT_TAIL.

(** The world after the chat handler served the requests one after the
    other. *)
Definition chat_all (reqs : list ChatRequest) (w : World) : World :=
  fold_left (fun w req => snd (chat req w)) reqs w.


(** How many newlines a text holds. *)
Definition newlines (s : str) : nat :=
  length (List.filter (fun c => c =? 10) s).

(** What the lead handler raises when the lead could not be saved. *)
Definition SAVE_FAILED : Exception := HTTPException 500 (u "Falha ao salvar o lead.").

(** The record the lead handler logs on entry. *)
Definition lead_received (lead : Lead) : LogRecord :=
  (INFO, u "✅ Novo lead recebido: Nome='" ++ name lead ++ u "', Email='" ++ email lead ++ u "'").

(** The lead file can be opened for appending: it is missing or it is a
    regular file that may be written. *)
Definition appendable (w : World) : Prop :=
  files w !! LEADS_FILE = None
  \/ exists readable content, files w !! LEADS_FILE = Some (Regular readable true content).

(** The log messages of startup. *)
Definition STARTING : str := u "Iniciando o chatbot...".
Definition DEGRADED : str :=
  u "[AVISO] O chatbot está rodando em modo degradado. Verifique a API Key e o arquivo de dados.".
Definition STARTED : str := u "✅ Chatbot Gemini inicializado com sucesso!".
Definition NO_API_KEY : str :=
  u "❌ ERRO: API KEY da Gemini não encontrada. Verifique suas variáveis de ambiente.".

(** ** Sample worlds and requests *)

Module Sample.

(** A small e-mail grammar to run the lead route on concrete requests: one
    [@] after a non-empty local part, a domain with an inner dot, and no
    whitespace.  It returns the address unchanged. *)
Fixpoint split_at (sep : char) (s : str) : option (str * str) :=
  match s with
  | [] => None
  | c :: s' =>
      if c =? sep then Some ([], s')
      else match split_at sep s' with
           | Some (l, r) => Some (c :: l, r)
           | None => None
           end
  end.

Definition validate_email (s : str) : option str :=
  match split_at 64 s with
  | Some (c :: _, domain) =>
      match split_at 46 domain with
      | Some (_ :: _, _ :: _) =>
          if forallb (fun c => negb (isspace c) && negb (c =? 64)) domain
             && forallb (fun c => negb (isspace c)) s
          then Some s else None
      | _ => None
      end
  | _ => None
  end.

(** A remote model that always answers with the same padded text. *)
Definition greeting : str := u "  Olá! Posso ajudar?" ++ LF.

Definition answering : list str -> str -> result GenerateContentResponse :=
  fun _ _ => Ok (mkResponse (Ok greeting)).

(** A remote model whose quota is used up. *)
Definition quota_error : Exception :=
  PyError "ResourceExhausted" (u "429 Quota exceeded for quota metric").

Definition exhausted : list str -> str -> result GenerateContentResponse :=
  fun _ _ => Raise quota_error.

Definition genai_start_chat (api_key model_name : str) : result ChatSession :=
  Ok (mkSession answering []).

Definition knowledge : str := u "O curso Jovem Programador é gratuito.".

(** Both globals set, nothing on disk yet. *)
Definition serving : World :=
  mkWorld ∅ ∅ [] (Some knowledge) (Some (mkSession answering [])).

Definition failing : World :=
  mkWorld ∅ ∅ [] (Some knowledge) (Some (mkSession exhausted [])).

(** The session started but the knowledge file was missing. *)
Definition degraded : World :=
  mkWorld ∅ ∅ [] None (Some (mkSession answering [])).

Definition api_key : gmap str str := {[ u "GEMINI_API_KEY" := u "secret" ]}.

(** Before startup, with an empty knowledge file. *)
Definition empty_knowledge : World :=
  mkWorld {[ KNOWLEDGE_BASE_FILE := Regular true true [] ]} api_key [] None None.

(** Before startup, without a knowledge file. *)
Definition no_knowledge : World :=
  mkWorld ∅ api_key [] None None.

(** Before startup, with a knowledge file nobody may read. *)
Definition unreadable_knowledge : World :=
  mkWorld {[ KNOWLEDGE_BASE_FILE := Regular false true knowledge ]} api_key [] None None.


(** A remote model whose reply is a lone surrogate, which no UTF-8 text
    can hold. *)
Definition surrogate : str := [55296].

Definition garbling : list str -> str -> result GenerateContentResponse :=
  fun _ _ => Ok (mkResponse (Ok surrogate)).

Definition garbled : World :=
  mkWorld ∅ ∅ [] (Some knowledge) (Some (mkSession garbling [])).



Definition chat_body (m : string) : json :=
  JObject [(u "message", JString (u m))].


Definition ana : Lead := mkLead (u "Ana") (u "ana@example.com").

End Sample.

(** * Properties *)

(** Unfold the monad's operations down to functions on worlds. *)
Ltac unfold_M :=
  unfold try_except, mbind, M_bind, bind, ret, raise, lift, read, modify.

(** ** Strings *)

Lemma lstrip_no_leading_space s c rest :
  lstrip s = c :: rest -> isspace c = false.
Proof.
  induction s as [|a s IH]; simpl; [discriminate|].
  destruct (isspace a) eqn:Ha; [exact IH|].
  intros E; injection E as -> _; exact Ha.
Qed.

Lemma rstrip_nil_iff s : rstrip s = [] <-> forallb isspace s = true.
Proof.
  induction s as [|a s IH]; simpl; [tauto|].
  destruct (rstrip s) eqn:E.
  - destruct (isspace a); simpl.
    + split; [intros _; apply IH; reflexivity | reflexivity].
    + split; discriminate.
  - split; [discriminate|].
    intros H. apply andb_prop in H as [_ H]. apply IH in H. discriminate.
Qed.

Lemma lstrip_app l s :
  forallb isspace l = true -> lstrip (l ++ s) = lstrip s.
Proof.
  induction l as [|a l IH]; simpl; [reflexivity|].
  intros H. apply andb_prop in H as [-> H]. auto.
Qed.

Lemma rstrip_app s r :
  forallb isspace r = true -> rstrip (s ++ r) = rstrip s.
Proof.
  intros Hr. induction s as [|a s IH]; simpl.
  - now apply rstrip_nil_iff.
  - now rewrite IH.
Qed.

Lemma rstrip_last s d :
  isspace d = false -> rstrip (s ++ [d]) = s ++ [d].
Proof.
  intros Hd. induction s as [|a s IH]; simpl; [now rewrite Hd|].
  rewrite IH. destruct (s ++ [d]) eqn:E; [now destruct s|reflexivity].
Qed.

(** What [strip] computes: of a text made of whitespace, a core that
    neither starts nor ends with whitespace, and whitespace again, it keeps
    the core. *)
Lemma strip_core l c m d r :
  forallb isspace l = true -> forallb isspace r = true ->
  isspace c = false -> isspace d = false ->
  strip (l ++ (c :: m ++ [d]) ++ r) = c :: m ++ [d].
Proof.
  intros Hl Hr Hc Hd. unfold strip. rewrite lstrip_app by exact Hl.
  assert (E : lstrip ((c :: m ++ [d]) ++ r) = ((c :: m) ++ [d]) ++ r)
    by (simpl; now rewrite Hc).
  rewrite E, rstrip_app by exact Hr. apply (rstrip_last (c :: m) d Hd).
Qed.

Lemma strip_single l c r :
  forallb isspace l = true -> forallb isspace r = true -> isspace c = false ->
  strip (l ++ [c] ++ r) = [c].
Proof.
  intros Hl Hr Hc. unfold strip. rewrite lstrip_app by exact Hl.
  assert (E : lstrip ([c] ++ r) = ([] ++ [c]) ++ r) by (simpl; now rewrite Hc).
  rewrite E, rstrip_app by exact Hr. apply (rstrip_last [] c Hc).
Qed.

Lemma strip_blank s : forallb isspace s = true -> strip s = [].
Proof.
  intros H. unfold strip. rewrite <- (app_nil_r s), lstrip_app by exact H. reflexivity.
Qed.

Example strip_example : strip (u "  Olá, mundo! ") = u "Olá, mundo!".
Proof. vm_compute. reflexivity. Qed.

Example u_example : u "não ✅" = [110; 227; 111; 32; 9989].
Proof. vm_compute. reflexivity. Qed.

(** ** Formatting *)

(** Text without braces formats to itself. *)
Lemma format_plain kwargs s :
  forallb (fun c => negb (c =? Format.lbrace) && negb (c =? Format.rbrace)) s = true ->
  Format.format s kwargs = Format.Formatted s.
Proof.
  unfold Format.format. induction s as [|c s IH]; simpl; [reflexivity|].
  intros H. apply andb_prop in H as [Hc Hs]. apply andb_prop in Hc as [Hl Hr].
  apply negb_true_iff in Hl, Hr. rewrite Hl, Hr, (IH Hs). reflexivity.
Qed.

(** A value is put in place as it is, braces and all. *)
Example format_value_not_rescanned :
  Format.format (u "<{x}>") [(u "x", u "{y}")] = Format.Formatted (u "<{y}>").
Proof. vm_compute. reflexivity. Qed.

Example format_escapes :
  Format.format (u "{{x}}") [(u "x", u "1")] = Format.Formatted (u "{x}").
Proof. vm_compute. reflexivity. Qed.

Example format_missing_key :
  Format.format (u "{y}") [(u "x", u "1")] = Format.Failed (PyError "KeyError" (u "'y'")).
Proof. vm_compute. reflexivity. Qed.

Example format_positional :
  Format.format (u "{}") [(u "x", u "1")]
  = Format.Failed
      (PyError "IndexError" (u "Replacement index 0 out of range for positional args tuple")).
Proof. vm_compute. reflexivity. Qed.

(** ** Prompt composition *)

Lemma compose_prompt_eq K Q :
  compose_prompt K Q
  = Format.Formatted (PROMPT_HEAD ++ K ++ PROMPT_MIDDLE ++ Q ++ PROMPT_TAIL).
Proof. vm_compute. reflexivity. Qed.

Lemma responder_com_gemini_eq chat base q w :
  responder_com_gemini chat base q w
  = let prompt := PROMPT_HEAD ++ base ++ PROMPT_MIDDLE ++ q ++ PROMPT_TAIL in
    (match downstream chat prompt with
     | Ok t => Ok (strip t)
     | Raise e => Raise e
     end,
     set_chat_session (Some (after_call chat prompt)) w).
Proof.
  unfold responder_com_gemini, format_prompt. rewrite compose_prompt_eq.
  unfold downstream, mbind, M_bind, bind, ret, send_message, lift. simpl.
  destruct (remote chat (sent chat) _) as [[[t|e]]|e]; reflexivity.
Qed.

(** ** The chat handler, case by case *)

Lemma available_Some w session base :
  available w = Some (session, base)
  <-> chat_session w = Some session /\ base_conhecimento w = Some base /\ base <> [].
Proof.
  unfold available.
  destruct (chat_session w) as [c|], (base_conhecimento w) as [[|x b]|]; simpl;
    (split; [intros E | intros (H1 & H2 & H3)]); try discriminate; try congruence.
  injection E as <- <-. repeat split. discriminate.
Qed.

Lemma available_None w :
  available w = None
  <-> chat_session w = None \/ base_conhecimento w = None \/ base_conhecimento w = Some [].
Proof.
  unfold available.
  destruct (chat_session w) as [c|], (base_conhecimento w) as [[|x b]|]; simpl;
    (split; [intros E | intros [H|[H|H]]]); try discriminate; auto.
Qed.

Lemma chat_eq req w :
  chat req w
  = match available w with
    | None => (Raise (HTTPException 503 UNAVAILABLE), w)
    | Some (session, base) =>
        if falsy (message req) then (Raise (HTTPException 400 EMPTY_MESSAGE), w)
        else
          let prompt := PROMPT_HEAD ++ base ++ PROMPT_MIDDLE ++ message req ++ PROMPT_TAIL in
          let w' := set_chat_session (Some (after_call session prompt)) w in
          match downstream session prompt with
          | Ok t => (Ok (JObject [(u "response", JString (strip t))]), w')
          | Raise e =>
              (Raise (HTTPException 500 PROCESSING_ERROR),
               logged ERROR (u "Erro ao gerar resposta do Gemini: " ++ exc_str e) w')
          end
    end.
Proof.
  unfold chat, mbind, M_bind, bind, read. simpl.
  destruct (available w) as [[session base]|]; [|reflexivity].
  destruct (falsy (message req)); [reflexivity|].
  unfold try_except, mbind, M_bind, bind. rewrite responder_com_gemini_eq. simpl.
  destruct (downstream session _); reflexivity.
Qed.

(** ** Rendering *)

Lemma render_response status t :
  utf8_encodable t = true ->
  render status (JObject [(u "response", JString t)])
  = Reply status (JObject [(u "response", JString t)]).
Proof.
  intros H. unfold render. cbn [json_encodable forallb]. rewrite H.
  change (utf8_encodable (u "response")) with true. reflexivity.
Qed.

Lemma render_response_unencodable status t :
  utf8_encodable t = false ->
  render status (JObject [(u "response", JString t)]) = Unencodable.
Proof.
  intros H. unfold render. cbn [json_encodable forallb]. rewrite H.
  change (utf8_encodable (u "response")) with true. reflexivity.
Qed.

Lemma render_detail status detail :
  utf8_encodable detail = true ->
  render status (JObject [(u "detail", JString detail)])
  = Reply status (JObject [(u "detail", JString detail)]).
Proof.
  intros H. unfold render. cbn [json_encodable forallb]. rewrite H.
  change (utf8_encodable (u "detail")) with true. reflexivity.
Qed.

Lemma UNAVAILABLE_encodable : utf8_encodable UNAVAILABLE = true.
Proof. vm_compute. reflexivity. Qed.

Lemma EMPTY_MESSAGE_encodable : utf8_encodable EMPTY_MESSAGE = true.
Proof. vm_compute. reflexivity. Qed.

Lemma PROCESSING_ERROR_encodable : utf8_encodable PROCESSING_ERROR = true.
Proof. vm_compute. reflexivity. Qed.


Lemma respond_unavailable :
  respond (Raise (HTTPException 503 UNAVAILABLE))
  = Reply 503 (JObject [(u "detail", JString UNAVAILABLE)]).
Proof. apply render_detail, UNAVAILABLE_encodable. Qed.

Lemma respond_empty_message :
  respond (Raise (HTTPException 400 EMPTY_MESSAGE))
  = Reply 400 (JObject [(u "detail", JString EMPTY_MESSAGE)]).
Proof. apply render_detail, EMPTY_MESSAGE_encodable. Qed.

Lemma respond_processing_error :
  respond (Raise (HTTPException 500 PROCESSING_ERROR))
  = Reply 500 (JObject [(u "detail", JString PROCESSING_ERROR)]).
Proof. apply render_detail, PROCESSING_ERROR_encodable. Qed.




(** ** The chat route *)

(** C1, as the code has it. A chat request with a non-empty message, served
    while the session and a non-empty knowledge blob are in place and the
    remote call returns a text, makes the handler return the single field
    [response] holding that text stripped of the whitespace at both ends.
    The route answers 200 with that body when the stripped text can be
    encoded as UTF-8; when it cannot, the body cannot be sent and the
    answer is the server's own 500. *)
Theorem chat_returns_trimmed_reply w body req session base prompt t :
  validate_ChatRequest body = inl req ->
  message req <> [] ->
  chat_session w = Some session ->
  base_conhecimento w = Some base ->
  base <> [] ->
  compose_prompt base (message req) = Format.Formatted prompt ->
  downstream session prompt = Ok t ->
  fst (chat req w) = Ok (JObject [(u "response", JString (strip t))])
  /\ (utf8_encodable (strip t) = true ->
      fst (POST_chat body w) = Reply 200 (JObject [(u "response", JString (strip t))]))
  /\ (utf8_encodable (strip t) = false ->
      fst (POST_chat body w) = Unencodable).
Proof.
  intros Hv Hm Hs Hb Hne Hp Hd.
  assert (prompt = PROMPT_HEAD ++ base ++ PROMPT_MIDDLE ++ message req ++ PROMPT_TAIL)
    as -> by (rewrite compose_prompt_eq in Hp; congruence).
  assert (E : fst (chat req w) = Ok (JObject [(u "response", JString (strip t))])).
  { rewrite chat_eq.
    rewrite (proj2 (available_Some w session base)) by auto.
    destruct (message req) as [|c m]; [contradiction|].
    cbv beta iota zeta delta [falsy]. rewrite Hd. reflexivity. }
  split; [exact E|].
  unfold POST_chat. rewrite Hv. destruct (chat req w) as [r w']. cbn [fst] in *.
  rewrite E. unfold respond. split; intros He.
  - now apply render_response.
  - now apply render_response_unencodable.
Qed.

Lemma chat_returns_trimmed_reply_witness :
  fst (chat (mkChatRequest (u "Quanto custa o curso?")) Sample.serving)
  = Ok (JObject [(u "response", JString (strip Sample.greeting))])
  /\ (utf8_encodable (strip Sample.greeting) = true ->
      fst (POST_chat (Sample.chat_body "Quanto custa o curso?") Sample.serving)
      = Reply 200 (JObject [(u "response", JString (strip Sample.greeting))]))
  /\ (utf8_encodable (strip Sample.greeting) = false ->
      fst (POST_chat (Sample.chat_body "Quanto custa o curso?") Sample.serving)
      = Unencodable).
Proof.
  apply (chat_returns_trimmed_reply Sample.serving _
           (mkChatRequest (u "Quanto custa o curso?"))
           (mkSession Sample.answering []) Sample.knowledge
           (PROMPT_HEAD ++ Sample.knowledge ++ PROMPT_MIDDLE
              ++ u "Quanto custa o curso?" ++ PROMPT_TAIL)
           Sample.greeting).
  - reflexivity.
  - vm_compute. discriminate.
  - reflexivity.
  - reflexivity.
  - vm_compute. discriminate.
  - apply compose_prompt_eq.
  - reflexivity.
Defined.

(** C1, as stated, fails: a remote reply that is a lone surrogate is a text
    like any other for the handler, which returns it, but the body cannot
    be encoded and the route answers the server's own 500, not 200. *)
Lemma chat_reply_with_surrogate_is_500 :
  downstream (mkSession Sample.garbling [])
    (PROMPT_HEAD ++ Sample.knowledge ++ PROMPT_MIDDLE ++ u "Oi" ++ PROMPT_TAIL)
  = Ok Sample.surrogate
  /\ fst (chat (mkChatRequest (u "Oi")) Sample.garbled)
     = Ok (JObject [(u "response", JString Sample.surrogate)])
  /\ fst (POST_chat (Sample.chat_body "Oi") Sample.garbled) = Unencodable
  /\ status_of (fst (POST_chat (Sample.chat_body "Oi") Sample.garbled)) = 500%Z.
Proof. repeat split; vm_compute; reflexivity. Qed.

(** C2. When the session or the knowledge blob is absent (or the blob is
    the empty string, which the handler tells apart no more than the code's
    test does), every chat request, whatever its message, is answered 503
    and the world is left as it was: nothing is sent through the session,
    the message is not looked at, and the request is not served. *)
Theorem chat_unavailable_503 w body req :
  validate_ChatRequest body = inl req ->
  chat_session w = None \/ base_conhecimento w = None \/ base_conhecimento w = Some [] ->
  chat req w = (Raise (HTTPException 503 UNAVAILABLE), w)
  /\ POST_chat body w = (Reply 503 (JObject [(u "detail", JString UNAVAILABLE)]), w)
  /\ forall served, fst (chat req w) <> Ok served.
Proof.
  intros Hv Habs.
  assert (E : chat req w = (Raise (HTTPException 503 UNAVAILABLE), w)).
  { rewrite chat_eq, (proj2 (available_None w)); [reflexivity|exact Habs]. }
  split; [exact E|]. split.
  - unfold POST_chat. rewrite Hv, E. now rewrite respond_unavailable.
  - intros served. rewrite E. discriminate.
Qed.

Lemma chat_unavailable_503_witness :
  chat (mkChatRequest []) Sample.degraded
  = (Raise (HTTPException 503 UNAVAILABLE), Sample.degraded)
  /\ POST_chat (Sample.chat_body "") Sample.degraded
     = (Reply 503 (JObject [(u "detail", JString UNAVAILABLE)]), Sample.degraded)
  /\ forall served, fst (chat (mkChatRequest []) Sample.degraded) <> Ok served.
Proof.
  apply (chat_unavailable_503 Sample.degraded (Sample.chat_body "") (mkChatRequest [])).
  - reflexivity.
  - right. left. reflexivity.
Defined.

(** C7. While the service is available, a chat request with the empty
    message is answered 400 and the world is left as it was, so the session
    has been sent nothing. *)
Theorem chat_empty_message_400 w body req session base :
  validate_ChatRequest body = inl req ->
  message req = [] ->
  chat_session w = Some session ->
  base_conhecimento w = Some base ->
  base <> [] ->
  chat req w = (Raise (HTTPException 400 EMPTY_MESSAGE), w)
  /\ POST_chat body w = (Reply 400 (JObject [(u "detail", JString EMPTY_MESSAGE)]), w).
Proof.
  intros Hv Hm Hs Hb Hne.
  assert (E : chat req w = (Raise (HTTPException 400 EMPTY_MESSAGE), w)).
  { rewrite chat_eq, (proj2 (available_Some w session base)) by auto.
    rewrite Hm. reflexivity. }
  split; [exact E|]. unfold POST_chat. rewrite Hv, E. now rewrite respond_empty_message.
Qed.

Lemma chat_empty_message_400_witness :
  chat (mkChatRequest []) Sample.serving
  = (Raise (HTTPException 400 EMPTY_MESSAGE), Sample.serving)
  /\ POST_chat (Sample.chat_body "") Sample.serving
     = (Reply 400 (JObject [(u "detail", JString EMPTY_MESSAGE)]), Sample.serving).
Proof.
  apply (chat_empty_message_400 Sample.serving (Sample.chat_body "") (mkChatRequest [])
           (mkSession Sample.answering []) Sample.knowledge).
  - reflexivity.
  - reflexivity.
  - reflexivity.
  - reflexivity.
  - vm_compute. discriminate.
Defined.

(** C8. Whatever exception the remote call raises, the handler logs it and
    raises the same [HTTPException]: status 500 with a fixed detail in which
    the exception plays no part.  The route answers 500 with that detail;
    the exception itself does not reach the caller. *)
Theorem chat_downstream_error_500 w body req session base prompt e :
  validate_ChatRequest body = inl req ->
  message req <> [] ->
  chat_session w = Some session ->
  base_conhecimento w = Some base ->
  base <> [] ->
  compose_prompt base (message req) = Format.Formatted prompt ->
  downstream session prompt = Raise e ->
  fst (chat req w) = Raise (HTTPException 500 PROCESSING_ERROR)
  /\ records (snd (chat req w))
     = records w ++ [(ERROR, u "Erro ao gerar resposta do Gemini: " ++ exc_str e)]
  /\ fst (POST_chat body w) = Reply 500 (JObject [(u "detail", JString PROCESSING_ERROR)]).
Proof.
  intros Hv Hm Hs Hb Hne Hp Hd.
  assert (prompt = PROMPT_HEAD ++ base ++ PROMPT_MIDDLE ++ message req ++ PROMPT_TAIL)
    as -> by (rewrite compose_prompt_eq in Hp; congruence).
  unfold POST_chat. rewrite Hv, chat_eq.
  rewrite (proj2 (available_Some w session base)) by auto.
  destruct (message req) as [|c m]; [contradiction|].
  cbv beta iota zeta delta [falsy]. rewrite Hd. cbn [fst snd].
  rewrite respond_processing_error. repeat split.
Qed.

Lemma chat_downstream_error_500_witness :
  fst (chat (mkChatRequest (u "Oi")) Sample.failing)
  = Raise (HTTPException 500 PROCESSING_ERROR)
  /\ records (snd (chat (mkChatRequest (u "Oi")) Sample.failing))
     = records Sample.failing
       ++ [(ERROR, u "Erro ao gerar resposta do Gemini: " ++ exc_str Sample.quota_error)]
  /\ fst (POST_chat (Sample.chat_body "Oi") Sample.failing)
     = Reply 500 (JObject [(u "detail", JString PROCESSING_ERROR)]).
Proof.
  apply (chat_downstream_error_500 Sample.failing (Sample.chat_body "Oi")
           (mkChatRequest (u "Oi")) (mkSession Sample.exhausted []) Sample.knowledge
           (PROMPT_HEAD ++ Sample.knowledge ++ PROMPT_MIDDLE ++ u "Oi" ++ PROMPT_TAIL)
           Sample.quota_error).
  - reflexivity.
  - vm_compute. discriminate.
  - reflexivity.
  - reflexivity.
  - vm_compute. discriminate.
  - apply compose_prompt_eq.
  - reflexivity.
Defined.

(** C10. While the service is available, a message made of whitespace only
    passes the empty-message check: the prompt sent through the session
    carries it unchanged, and the request is not answered 400. *)
Theorem chat_whitespace_message_forwarded w req session base :
  message req <> [] ->
  forallb isspace (message req) = true ->
  chat_session w = Some session ->
  base_conhecimento w = Some base ->
  base <> [] ->
  chat_session (snd (chat req w))
  = Some (mkSession (remote session)
            (sent session
               ++ [PROMPT_HEAD ++ base ++ PROMPT_MIDDLE ++ message req ++ PROMPT_TAIL]))
  /\ forall detail, fst (chat req w) <> Raise (HTTPException 400 detail).
Proof.
  intros Hm _ Hs Hb Hne. rewrite chat_eq.
  rewrite (proj2 (available_Some w session base)) by auto.
  destruct (message req) as [|c m]; [contradiction|].
  cbv beta iota zeta delta [falsy].
  destruct (downstream session _); (split; [reflexivity | intros d; discriminate]).
Qed.

Lemma chat_whitespace_message_forwarded_witness :
  chat_session (snd (chat (mkChatRequest (u " ")) Sample.serving))
  = Some (mkSession Sample.answering
            [PROMPT_HEAD ++ Sample.knowledge ++ PROMPT_MIDDLE ++ u " " ++ PROMPT_TAIL])
  /\ forall detail,
       fst (chat (mkChatRequest (u " ")) Sample.serving) <> Raise (HTTPException 400 detail).
Proof.
  apply (chat_whitespace_message_forwarded Sample.serving (mkChatRequest (u " "))
           (mkSession Sample.answering []) Sample.knowledge).
  - vm_compute. discriminate.
  - reflexivity.
  - reflexivity.
  - reflexivity.
  - vm_compute. discriminate.
Defined.

(** C4. The prompt is the fixed template with the knowledge and the question
    put in place of its two fields, each as it is and in full, whatever
    characters they hold; this is the prompt the session is sent. *)
Theorem prompt_is_literal_substitution K Q :
  PROMPT_TEMPLATE
  = PROMPT_HEAD ++ u "{base_conhecimento}" ++ PROMPT_MIDDLE ++ u "{pergunta_usuario}"
      ++ PROMPT_TAIL
  /\ compose_prompt K Q
     = Format.Formatted (PROMPT_HEAD ++ K ++ PROMPT_MIDDLE ++ Q ++ PROMPT_TAIL)
  /\ forall chat w,
       chat_session (snd (responder_com_gemini chat K Q w))
       = Some (mkSession (remote chat)
                 (sent chat ++ [PROMPT_HEAD ++ K ++ PROMPT_MIDDLE ++ Q ++ PROMPT_TAIL])).
Proof.
  split; [vm_compute; reflexivity|].
  split; [apply compose_prompt_eq|].
  intros chat w. rewrite responder_com_gemini_eq. reflexivity.
Qed.

(** ** The knowledge loader *)

Lemma carregar_conhecimento_missing caminho w :
  files w !! caminho = None ->
  carregar_conhecimento caminho w
  = (Ok None,
     logged ERROR
       (u "❌ ERRO: Arquivo da base de conhecimento não encontrado em '" ++ caminho ++ u "'.")
       w).
Proof.
  intros H. unfold carregar_conhecimento, open_read; unfold_M.
  rewrite H. reflexivity.
Qed.

Lemma carregar_conhecimento_readable caminho w writable content :
  files w !! caminho = Some (Regular true writable content) ->
  carregar_conhecimento caminho w = (Ok (Some content), w).
Proof.
  intros H. unfold carregar_conhecimento, open_read; unfold_M.
  rewrite H. reflexivity.
Qed.

Lemma carregar_conhecimento_denied caminho w writable content :
  files w !! caminho = Some (Regular false writable content) ->
  carregar_conhecimento caminho w
  = (Raise (os_error "PermissionError" 13 "Permission denied" caminho), w).
Proof.
  intros H. unfold carregar_conhecimento, open_read; unfold_M.
  rewrite H. reflexivity.
Qed.

Lemma carregar_conhecimento_directory caminho w :
  files w !! caminho = Some Directory ->
  carregar_conhecimento caminho w
  = (Raise (os_error "IsADirectoryError" 21 "Is a directory" caminho), w).
Proof.
  intros H. unfold carregar_conhecimento, open_read; unfold_M.
  rewrite H. reflexivity.
Qed.






(** What the two sample files read as: the line ends of the first come out
    as LF, the last byte of the second starts a sequence that never ends. *)
Example crlf_knowledge_reads_as :
  universal_newlines [79; 105; 13; 10; 225; 13; 10] = u "Oi" ++ LF ++ u "á" ++ LF.
Proof. vm_compute. reflexivity. Qed.

Example latin1_knowledge_error :
  UnicodeDecodeError 225 2 3 "unexpected end of data"
  = PyError "UnicodeDecodeError"
      (u "'utf-8' codec can't decode byte 0xe1 in position 2: unexpected end of data").
Proof. vm_compute. reflexivity. Qed.

Example utf8_strict_invalid_start :
  utf8_strict [79; 255; 33] 0 = Undecodable 255 1 2 "invalid start byte".
Proof. reflexivity. Qed.

Example utf8_strict_invalid_continuation :
  utf8_strict [226; 130; 65] 0 = Undecodable 226 0 2 "invalid continuation byte".
Proof. reflexivity. Qed.

Example utf8_strict_surrogate :
  utf8_strict [237; 160; 128] 0 = Undecodable 237 0 1 "invalid continuation byte".
Proof. reflexivity. Qed.

(** The bytes of a source literal decode, strictly, to the text it denotes. *)
Example utf8_strict_literal :
  utf8_strict (bytes_of "não ✅ 😀") 0 = Decoded (u "não ✅ 😀").
Proof. vm_compute. reflexivity. Qed.


(** ** Startup *)

Lemma iniciar_gemini_keeps genai w :
  base_conhecimento (snd (iniciar_gemini genai w)) = base_conhecimento w
  /\ files (snd (iniciar_gemini genai w)) = files w.
Proof.
  unfold iniciar_gemini, getenv, read, mbind, M_bind, bind. simpl.
  destruct (environ w !! u "GEMINI_API_KEY") as [[|c k]|]; try (split; reflexivity).
  unfold try_except, mbind, M_bind, bind, lift.
  destruct (genai (c :: k) GEMINI_MODEL_NAME); split; reflexivity.
Qed.

(** After startup the knowledge global holds what the loader returned. *)
Lemma startup_event_base genai w b :
  (forall w', files w' = files w -> exists w'',
      carregar_conhecimento KNOWLEDGE_BASE_FILE w' = (Ok b, w'')
      /\ files w'' = files w') ->
  base_conhecimento (snd (startup_event genai w)) = b.
Proof.
  intros H. unfold startup_event, mbind, M_bind, bind.
  unfold logging at 1, modify at 1.
  destruct (H (logged INFO (u "Iniciando o chatbot...") w) eq_refl) as (w1 & E & _).
  rewrite E. unfold modify at 1.
  pose proof (iniciar_gemini_keeps genai (set_base_conhecimento b w1)) as [Hb _].
  destruct (iniciar_gemini genai (set_base_conhecimento b w1)) as [[chat|e] w2];
    simpl in Hb |- *; [|exact Hb].
  unfold read. destruct (available _); simpl; exact Hb.
Qed.

(** C9. With an empty knowledge file, startup leaves the empty string in the
    knowledge global, and every chat request is then answered 503, which is
    also the answer after a startup that found no knowledge file. *)
Theorem empty_knowledge_refuses_chat genai w w0 writable req :
  files w !! KNOWLEDGE_BASE_FILE = Some (Regular true writable []) ->
  files w0 !! KNOWLEDGE_BASE_FILE = None ->
  base_conhecimento (snd (startup_event genai w)) = Some []
  /\ fst (chat req (snd (startup_event genai w))) = Raise (HTTPException 503 UNAVAILABLE)
  /\ fst (chat req (snd (startup_event genai w0)))
     = fst (chat req (snd (startup_event genai w))).
Proof.
  intros Hw Hw0.
  assert (B : base_conhecimento (snd (startup_event genai w)) = Some []).
  { apply startup_event_base. intros w' Hf. exists w'. split; [|reflexivity].
    apply (carregar_conhecimento_readable _ _ writable). now rewrite Hf. }
  assert (B0 : base_conhecimento (snd (startup_event genai w0)) = None).
  { apply startup_event_base. intros w' Hf. eexists. split.
    - apply carregar_conhecimento_missing. now rewrite Hf.
    - reflexivity. }
  split; [exact B|].
  rewrite !chat_eq.
  rewrite (proj2 (available_None (snd (startup_event genai w)))) by tauto.
  rewrite (proj2 (available_None (snd (startup_event genai w0)))) by tauto.
  split; reflexivity.
Qed.

Lemma empty_knowledge_refuses_chat_witness :
  base_conhecimento (snd (startup_event Sample.genai_start_chat Sample.empty_knowledge))
  = Some []
  /\ fst (chat (mkChatRequest (u "Oi"))
            (snd (startup_event Sample.genai_start_chat Sample.empty_knowledge)))
     = Raise (HTTPException 503 UNAVAILABLE)
  /\ fst (chat (mkChatRequest (u "Oi"))
            (snd (startup_event Sample.genai_start_chat Sample.no_knowledge)))
     = fst (chat (mkChatRequest (u "Oi"))
              (snd (startup_event Sample.genai_start_chat Sample.empty_knowledge))).
Proof.
  apply (empty_knowledge_refuses_chat Sample.genai_start_chat Sample.empty_knowledge
           Sample.no_knowledge true (mkChatRequest (u "Oi"))).
  - reflexivity.
  - reflexivity.
Defined.

(** ** The lead route *)

Lemma capturar_lead_eq lead w :
  capturar_lead lead w
  = let w0 :=
      logged INFO
        (u "✅ Novo lead recebido: Nome='" ++ name lead ++ u "', Email='" ++ email lead ++ u "'")
        w in
    match opened_for_append LEADS_FILE (files w !! LEADS_FILE) with
    | Raise e =>
        (Raise (HTTPException 500 (u "Falha ao salvar o lead.")),
         logged ERROR (u "❌ ERRO ao salvar lead: " ++ exc_str e) w0)
    | Ok (readable, content) =>
        if utf8_encodable (lead_line lead) then
          (Ok LEAD_STORED,
           set_files (<[LEADS_FILE := Regular readable true (content ++ lead_line lead)]> (files w))
             w0)
        else
          (Raise (HTTPException 500 (u "Falha ao salvar o lead.")),
           logged ERROR (u "❌ ERRO ao salvar lead: " ++ exc_str (UnicodeEncodeError (lead_line lead)))
             (set_files (<[LEADS_FILE := Regular readable true content]> (files w)) w0))
    end.
Proof.
  unfold capturar_lead, try_except, mbind, M_bind, bind, logging, modify, append_text.
  simpl files.
  destruct (opened_for_append LEADS_FILE (files w !! LEADS_FILE)) as [[readable content]|e];
    [|reflexivity].
  destruct (utf8_encodable (lead_line lead)); reflexivity.
Qed.











(** Whatever the e-mail grammar, an empty name does not stop a lead whose
    address the grammar accepts. *)
Lemma empty_name_passes_validation validate_email s e :
  validate_email s = Some e ->
  validate_Lead validate_email (JObject [(u "name", JString []); (u "email", JString s)])
  = inl (mkLead [] e).
Proof.
  intros H. unfold validate_Lead, email_field.
  change (str_field (u "name") [(u "name", JString []); (u "email", JString s)])
    with (Some ([] : str)).
  change (str_field (u "email") [(u "name", JString []); (u "email", JString s)])
    with (Some s).
  cbv beta iota. now rewrite H.
Qed.


(** * Beyond the claims *)

(** ** Opening the chat session *)

Lemma iniciar_gemini_eq genai w :
  iniciar_gemini genai w
  = match environ w !! u "GEMINI_API_KEY" with
    | None | Some [] => (Ok None, logged ERROR NO_API_KEY w)
    | Some api_key =>
        match genai api_key GEMINI_MODEL_NAME with
        | Ok chat => (Ok (Some chat), w)
        | Raise e =>
            (Ok None,
             logged ERROR (u "❌ ERRO: Falha ao iniciar o modelo Gemini: " ++ exc_str e) w)
        end
    end.
Proof.
  unfold iniciar_gemini, getenv, NO_API_KEY, logging; unfold_M. cbv beta iota.
  destruct (environ w !! u "GEMINI_API_KEY") as [[|c k]|].
  - reflexivity.
  - destruct (genai (c :: k) GEMINI_MODEL_NAME); reflexivity.
  - reflexivity.
Qed.

(** X1. [iniciar_gemini] never raises, whatever the environment holds and
    whatever the client library does; it leaves files, environment and both
    globals alone, returns a session without logging, or returns nothing
    and logs exactly one error. *)
Theorem iniciar_gemini_never_raises genai w :
  exists r,
    fst (iniciar_gemini genai w) = Ok r
    /\ files (snd (iniciar_gemini genai w)) = files w
    /\ environ (snd (iniciar_gemini genai w)) = environ w
    /\ base_conhecimento (snd (iniciar_gemini genai w)) = base_conhecimento w
    /\ chat_session (snd (iniciar_gemini genai w)) = chat_session w
    /\ match r with
       | Some _ => records (snd (iniciar_gemini genai w)) = records w
       | None => exists msg, records (snd (iniciar_gemini genai w)) = records w ++ [(ERROR, msg)]
       end.
Proof.
  rewrite iniciar_gemini_eq.
  destruct (environ w !! u "GEMINI_API_KEY") as [[|c k]|].
  - exists None. repeat split. eexists; reflexivity.
  - destruct (genai (c :: k) GEMINI_MODEL_NAME) as [chat|e].
    + exists (Some chat). repeat split.
    + exists None. repeat split. eexists; reflexivity.
  - exists None. repeat split. eexists; reflexivity.
Qed.

(** X2. Without an API key in the environment, or with an empty one,
    [iniciar_gemini] returns nothing and logs that the key was not found;
    the client library has no part in the result. *)
Theorem iniciar_gemini_without_key genai w :
  environ w !! u "GEMINI_API_KEY" = None \/ environ w !! u "GEMINI_API_KEY" = Some [] ->
  iniciar_gemini genai w = (Ok None, logged ERROR NO_API_KEY w).
Proof.
  intros [H|H]; rewrite iniciar_gemini_eq; unfold str in *; rewrite H; reflexivity.
Qed.

Lemma iniciar_gemini_without_key_witness :
  iniciar_gemini Sample.genai_start_chat Sample.serving
  = (Ok None, logged ERROR NO_API_KEY Sample.serving).
Proof.
  apply (iniciar_gemini_without_key Sample.genai_start_chat Sample.serving).
  left. reflexivity.
Defined.

(** X3. With a non-empty API key, [iniciar_gemini] hands that key and
    [GEMINI_MODEL_NAME] to the client library and returns the session the
    library started, logging nothing. *)
Theorem iniciar_gemini_starts_session genai w api_key chat :
  environ w !! u "GEMINI_API_KEY" = Some api_key ->
  api_key <> [] ->
  genai api_key GEMINI_MODEL_NAME = Ok chat ->
  iniciar_gemini genai w = (Ok (Some chat), w).
Proof.
  intros Hk Hne Hg. rewrite iniciar_gemini_eq. unfold str in *. rewrite Hk.
  destruct api_key as [|c k]; [contradiction|]. rewrite Hg. reflexivity.
Qed.

Lemma iniciar_gemini_starts_session_witness :
  iniciar_gemini Sample.genai_start_chat Sample.no_knowledge
  = (Ok (Some (mkSession Sample.answering [])), Sample.no_knowledge).
Proof.
  apply (iniciar_gemini_starts_session Sample.genai_start_chat Sample.no_knowledge
           (u "secret")).
  - reflexivity.
  - vm_compute. discriminate.
  - reflexivity.
Defined.

(** X4. When the client library raises while the session is being started,
    [iniciar_gemini] returns nothing and logs the failure with the text of
    the exception. *)
Theorem iniciar_gemini_soft_failure genai w api_key e :
  environ w !! u "GEMINI_API_KEY" = Some api_key ->
  api_key <> [] ->
  genai api_key GEMINI_MODEL_NAME = Raise e ->
  iniciar_gemini genai w
  = (Ok None, logged ERROR (u "❌ ERRO: Falha ao iniciar o modelo Gemini: " ++ exc_str e) w).
Proof.
  intros Hk Hne Hg. rewrite iniciar_gemini_eq. unfold str in *. rewrite Hk.
  destruct api_key as [|c k]; [contradiction|]. rewrite Hg. reflexivity.
Qed.

Lemma iniciar_gemini_soft_failure_witness :
  iniciar_gemini (fun _ _ => Raise Sample.quota_error) Sample.no_knowledge
  = (Ok None,
     logged ERROR
       (u "❌ ERRO: Falha ao iniciar o modelo Gemini: " ++ exc_str Sample.quota_error)
       Sample.no_knowledge).
Proof.
  apply (iniciar_gemini_soft_failure (fun _ _ => Raise Sample.quota_error)
           Sample.no_knowledge (u "secret") Sample.quota_error).
  - reflexivity.
  - vm_compute. discriminate.
  - reflexivity.
Defined.

(** ** Startup *)

Lemma startup_event_eq genai w :
  startup_event genai w
  = match carregar_conhecimento KNOWLEDGE_BASE_FILE (logged INFO STARTING w) with
    | (Raise e, w1) => (Raise e, w1)
    | (Ok base, w1) =>
        match iniciar_gemini genai (set_base_conhecimento base w1) with
        | (Raise e, w2) => (Raise e, w2)
        | (Ok chat, w2) =>
            match available (set_chat_session chat w2) with
            | None => (Ok tt, logged WARNING DEGRADED (set_chat_session chat w2))
            | Some _ => (Ok tt, logged INFO STARTED (set_chat_session chat w2))
            end
        end
    end.
Proof.
  unfold startup_event, logging, STARTING, DEGRADED, STARTED; unfold_M. cbv beta iota.
  destruct (carregar_conhecimento KNOWLEDGE_BASE_FILE _) as [[base|e] w1]; [|reflexivity].
  destruct (iniciar_gemini genai _) as [[chat|e] w2]; [|reflexivity].
  destruct (available _); reflexivity.
Qed.

(** Reduce the projections of a world built by the setters. *)
Ltac fields :=
  cbn [fst snd files environ records base_conhecimento chat_session
       set_files set_records set_base_conhecimento set_chat_session logged].

(** X5. A missing knowledge file does not abort startup: [startup_event]
    returns normally, the knowledge global is left absent, and the log
    shows the start, the file that was not found and, last, the warning
    about the degraded mode. *)
Theorem startup_event_degraded_without_file genai w :
  files w !! KNOWLEDGE_BASE_FILE = None ->
  fst (startup_event genai w) = Ok tt
  /\ base_conhecimento (snd (startup_event genai w)) = None
  /\ chat_session (snd (startup_event genai w))
     = match fst (iniciar_gemini genai w) with Ok chat => chat | Raise _ => None end
  /\ exists middle,
       records (snd (startup_event genai w))
       = records w
         ++ [(INFO, STARTING);
             (ERROR, u "❌ ERRO: Arquivo da base de conhecimento não encontrado em '"
                       ++ KNOWLEDGE_BASE_FILE ++ u "'.")]
         ++ middle ++ [(WARNING, DEGRADED)].
Proof.
  intros H. rewrite startup_event_eq.
  rewrite (carregar_conhecimento_missing KNOWLEDGE_BASE_FILE (logged INFO STARTING w) H).
  rewrite !iniciar_gemini_eq. fields.
  destruct (environ w !! u "GEMINI_API_KEY") as [[|c k]|];
    [|destruct (genai (c :: k) GEMINI_MODEL_NAME) as [chat|e]|];
    rewrite (proj2 (available_None _)) by (right; left; reflexivity);
    repeat split; fields.
  - exists [(ERROR, NO_API_KEY)]. now rewrite <- !app_assoc.
  - exists []. now rewrite <- !app_assoc.
  - eexists [(ERROR, _)]. now rewrite <- !app_assoc.
  - exists [(ERROR, NO_API_KEY)]. now rewrite <- !app_assoc.
Qed.

Lemma startup_event_degraded_without_file_witness :
  fst (startup_event Sample.genai_start_chat Sample.no_knowledge) = Ok tt
  /\ base_conhecimento (snd (startup_event Sample.genai_start_chat Sample.no_knowledge)) = None
  /\ chat_session (snd (startup_event Sample.genai_start_chat Sample.no_knowledge))
     = match fst (iniciar_gemini Sample.genai_start_chat Sample.no_knowledge) with
       | Ok chat => chat
       | Raise _ => None
       end
  /\ exists middle,
       records (snd (startup_event Sample.genai_start_chat Sample.no_knowledge))
       = records Sample.no_knowledge
         ++ [(INFO, STARTING);
             (ERROR, u "❌ ERRO: Arquivo da base de conhecimento não encontrado em '"
                       ++ KNOWLEDGE_BASE_FILE ++ u "'.")]
         ++ middle ++ [(WARNING, DEGRADED)].
Proof.
  apply (startup_event_degraded_without_file Sample.genai_start_chat Sample.no_knowledge).
  reflexivity.
Defined.

(** X6. A knowledge file that exists but cannot be read, or a directory in
    its place, aborts startup: [startup_event] raises the error of [open]
    right after logging the start, before the session is opened, and leaves
    both globals as they were. *)
Theorem startup_event_aborts_on_unreadable genai w :
  (forall writable content,
     files w !! KNOWLEDGE_BASE_FILE = Some (Regular false writable content) ->
     startup_event genai w
     = (Raise (os_error "PermissionError" 13 "Permission denied" KNOWLEDGE_BASE_FILE),
        logged INFO STARTING w))
  /\ (files w !! KNOWLEDGE_BASE_FILE = Some Directory ->
      startup_event genai w
      = (Raise (os_error "IsADirectoryError" 21 "Is a directory" KNOWLEDGE_BASE_FILE),
         logged INFO STARTING w)).
Proof.
  split.
  - intros writable content H. rewrite startup_event_eq.
    now rewrite (carregar_conhecimento_denied KNOWLEDGE_BASE_FILE (logged INFO STARTING w)
                   writable content H).
  - intros H. rewrite startup_event_eq.
    now rewrite (carregar_conhecimento_directory KNOWLEDGE_BASE_FILE (logged INFO STARTING w) H).
Qed.

Lemma startup_event_aborts_on_unreadable_witness :
  startup_event Sample.genai_start_chat Sample.unreadable_knowledge
  = (Raise (os_error "PermissionError" 13 "Permission denied" KNOWLEDGE_BASE_FILE),
     logged INFO STARTING Sample.unreadable_knowledge).
Proof.
  apply (proj1 (startup_event_aborts_on_unreadable Sample.genai_start_chat
                  Sample.unreadable_knowledge) true Sample.knowledge).
  reflexivity.
Defined.






(** X9. Without a usable API key (none, or the empty string), and with a
    knowledge file that is missing or readable, startup still returns
    normally; afterwards there is no session, every chat request is
    answered 503, and the root route still answers 200. *)
Theorem startup_without_credential genai w req :
  environ w !! u "GEMINI_API_KEY" = None \/ environ w !! u "GEMINI_API_KEY" = Some [] ->
  (files w !! KNOWLEDGE_BASE_FILE = None
   \/ exists writable content,
        files w !! KNOWLEDGE_BASE_FILE = Some (Regular true writable content)) ->
  let w' := snd (startup_event genai w) in
  fst (startup_event genai w) = Ok tt
  /\ chat_session w' = None
  /\ chat req w' = (Raise (HTTPException 503 UNAVAILABLE), w')
  /\ GET_root w'
     = (Reply 200 (JObject [(u "status", JString (u "API do Chatbot está funcionando!"))]), w').
Proof.
  intros Hk Hf w'.
  assert (E : fst (startup_event genai w) = Ok tt /\ chat_session w' = None).
  { unfold w'. rewrite startup_event_eq.
    destruct Hf as [Hf|(writable & content & Hf)].
    - rewrite (carregar_conhecimento_missing KNOWLEDGE_BASE_FILE (logged INFO STARTING w) Hf).
      rewrite iniciar_gemini_eq. fields. unfold str in *.
      destruct Hk as [Hk|Hk]; rewrite Hk;
        rewrite (proj2 (available_None _)) by (left; reflexivity); split; reflexivity.
    - rewrite (carregar_conhecimento_readable KNOWLEDGE_BASE_FILE (logged INFO STARTING w)
                 writable content Hf).
      rewrite iniciar_gemini_eq. fields. unfold str in *.
      destruct Hk as [Hk|Hk]; rewrite Hk;
        rewrite (proj2 (available_None _)) by (left; reflexivity); split; reflexivity. }
  destruct E as [E1 E2]. split; [exact E1|]. split; [exact E2|]. split.
  - rewrite chat_eq, (proj2 (available_None w')) by (left; exact E2). reflexivity.
  - reflexivity.
Qed.

Lemma startup_without_credential_witness :
  let w' := snd (startup_event Sample.genai_start_chat Sample.serving) in
  fst (startup_event Sample.genai_start_chat Sample.serving) = Ok tt
  /\ chat_session w' = None
  /\ chat (mkChatRequest (u "Oi")) w' = (Raise (HTTPException 503 UNAVAILABLE), w')
  /\ GET_root w'
     = (Reply 200 (JObject [(u "status", JString (u "API do Chatbot está funcionando!"))]), w').
Proof.
  apply (startup_without_credential Sample.genai_start_chat Sample.serving
           (mkChatRequest (u "Oi"))).
  - left. reflexivity.
  - left. reflexivity.
Defined.

(** ** More on the chat route *)



(** X11. Serving a chat request changes no file, no environment variable
    and not the knowledge global; a missing session stays missing, and an
    existing session stays the same remote session with at most one prompt
    added to what it was sent. *)
Theorem chat_keeps_world req w :
  files (snd (chat req w)) = files w
  /\ environ (snd (chat req w)) = environ w
  /\ base_conhecimento (snd (chat req w)) = base_conhecimento w
  /\ match chat_session w with
     | None => chat_session (snd (chat req w)) = None
     | Some session =>
         exists session' extra,
           chat_session (snd (chat req w)) = Some session'
           /\ remote session' = remote session
           /\ sent session' = sent session ++ extra
           /\ (length extra <= 1)%nat
     end.
Proof.
  rewrite chat_eq. destruct (available w) as [[session base]|] eqn:Ha.
  - apply available_Some in Ha as (Hs & Hb & _). rewrite Hs.
    destruct (falsy (message req)).
    + fields. repeat split. exists session, []. rewrite app_nil_r. auto.
    + cbv zeta. destruct (downstream session _); fields; repeat split;
        eexists _, [_]; (split; [reflexivity|]); cbn [remote sent after_call]; auto.
  - fields. repeat split. destruct (chat_session w) as [session|]; [|reflexivity].
    exists session, []. rewrite app_nil_r. auto.
Qed.



Lemma chat_sent req w session base :
  chat_session w = Some session ->
  base_conhecimento w = Some base ->
  base <> [] ->
  chat_session (snd (chat req w))
  = Some (mkSession (remote session)
            (sent session ++ (if falsy (message req) then [] else [prompt_for base req])))
  /\ base_conhecimento (snd (chat req w)) = Some base.
Proof.
  intros Hs Hb Hne. rewrite chat_eq.
  rewrite (proj2 (available_Some w session base)) by auto.
  destruct (falsy (message req)).
  - fields. rewrite app_nil_r, Hs, Hb. destruct session; auto.
  - cbv zeta. destruct (downstream session _); fields; rewrite Hb; auto.
Qed.

(** X13. Over any sequence of chat requests served while the service is
    available, the one session is kept and records, in order, exactly the
    prompts of the requests whose message is not empty; the knowledge
    stays what it was. *)
Theorem chat_all_sent reqs w session base :
  chat_session w = Some session ->
  base_conhecimento w = Some base ->
  base <> [] ->
  chat_session (chat_all reqs w)
  = Some (mkSession (remote session)
            (sent session
               ++ map (prompt_for base)
                    (List.filter (fun req => negb (falsy (message req))) reqs)))
  /\ base_conhecimento (chat_all reqs w) = Some base.
Proof.
  revert w session. induction reqs as [|req reqs IH]; intros w session Hs Hb Hne.
  - cbn. rewrite app_nil_r, Hs, Hb. destruct session; auto.
  - destruct (chat_sent req w session base Hs Hb Hne) as [Hs' Hb'].
    change (chat_all (req :: reqs) w) with (chat_all reqs (snd (chat req w))).
    destruct (IH _ _ Hs' Hb' Hne) as [-> ->]. split; [|reflexivity].
    cbn [remote sent List.filter]. destruct (falsy (message req)); cbn [negb map].
    + now rewrite app_nil_r.
    + now rewrite <- app_assoc.
Qed.

Lemma chat_all_sent_witness :
  let reqs := [mkChatRequest (u "Oi"); mkChatRequest []; mkChatRequest (u "Quanto custa?")] in
  chat_session (chat_all reqs Sample.serving)
  = Some (mkSession Sample.answering
            ([] ++ map (prompt_for Sample.knowledge)
                     (List.filter (fun req => negb (falsy (message req))) reqs)))
  /\ base_conhecimento (chat_all reqs Sample.serving) = Some Sample.knowledge.
Proof.
  intros reqs.
  apply (chat_all_sent reqs Sample.serving (mkSession Sample.answering []) Sample.knowledge).
  - reflexivity.
  - reflexivity.
  - vm_compute. discriminate.
Defined.

(** X14. When the remote reply is nothing but whitespace (or empty), the
    request still succeeds: it is answered 200 with an empty [response]. *)
Theorem chat_blank_reply w req session base t :
  chat_session w = Some session ->
  base_conhecimento w = Some base ->
  base <> [] ->
  message req <> [] ->
  downstream session (prompt_for base req) = Ok t ->
  forallb isspace t = true ->
  respond (fst (chat req w)) = Reply 200 (JObject [(u "response", JString [])]).
Proof.
  intros Hs Hb Hne Hm Hd Ht. rewrite chat_eq.
  rewrite (proj2 (available_Some w session base)) by auto.
  destruct (message req) as [|c m] eqn:E; [contradiction|].
  cbv beta iota zeta delta [falsy].
  unfold prompt_for in Hd. rewrite E in Hd. rewrite Hd, (strip_blank t Ht). reflexivity.
Qed.

Lemma chat_blank_reply_witness :
  let session := mkSession (fun _ _ => Ok (mkResponse (Ok (u "  " ++ LF)))) [] in
  respond (fst (chat (mkChatRequest (u "Oi"))
                  (mkWorld ∅ ∅ [] (Some Sample.knowledge) (Some session))))
  = Reply 200 (JObject [(u "response", JString [])]).
Proof.
  intros session.
  apply (chat_blank_reply _ (mkChatRequest (u "Oi")) session Sample.knowledge (u "  " ++ LF)).
  - reflexivity.
  - reflexivity.
  - vm_compute. discriminate.
  - vm_compute. discriminate.
  - reflexivity.
  - vm_compute. reflexivity.
Defined.

Lemma rstrip_head s c r : rstrip s = c :: r -> exists s', s = c :: s'.
Proof.
  destruct s as [|a s]; simpl; [discriminate|].
  destruct (rstrip s); [destruct (isspace a)|]; intros E; try discriminate;
    injection E as -> _; eauto.
Qed.

Lemma rstrip_last_not_space s d : last (rstrip s) = Some d -> isspace d = false.
Proof.
  induction s as [|a s IH]; simpl; [discriminate|].
  destruct (rstrip s) as [|k ks] eqn:E.
  - destruct (isspace a) eqn:Ha; simpl; [discriminate|]. congruence.
  - intros H. apply IH. exact H.
Qed.

(** [strip] leaves no whitespace at either end. *)
Lemma strip_trimmed s :
  (forall c, head (strip s) = Some c -> isspace c = false)
  /\ (forall d, last (strip s) = Some d -> isspace d = false).
Proof.
  unfold strip. split.
  - intros c H. destruct (rstrip (lstrip s)) as [|x r] eqn:E; [discriminate|].
    injection H as ->. apply rstrip_head in E as [s' E].
    exact (lstrip_no_leading_space _ _ _ E).
  - apply rstrip_last_not_space.
Qed.

(** X15. Whatever the remote session answers, the [response] of a served
    chat request neither starts nor ends with whitespace, and it is the
    only member of the body. *)
Theorem chat_response_trimmed req w body :
  fst (chat req w) = Ok body ->
  exists r,
    body = JObject [(u "response", JString r)]
    /\ (forall c, head r = Some c -> isspace c = false)
    /\ (forall d, last r = Some d -> isspace d = false).
Proof.
  rewrite chat_eq. destruct (available w) as [[session base]|]; [|discriminate].
  destruct (falsy (message req)); [discriminate|]. cbv zeta.
  destruct (downstream session _) as [t|e]; [|discriminate].
  cbn [fst]. intros E. injection E as <-. exists (strip t).
  split; [reflexivity|]. apply strip_trimmed.
Qed.

Lemma chat_response_trimmed_witness :
  exists r,
    JObject [(u "response", JString (strip Sample.greeting))]
    = JObject [(u "response", JString r)]
    /\ (forall c, head r = Some c -> isspace c = false)
    /\ (forall d, last r = Some d -> isspace d = false).
Proof.
  apply (chat_response_trimmed (mkChatRequest (u "Oi")) Sample.serving).
  reflexivity.
Defined.

(** ** More on the lead route *)

(** The lead handler, outcome by outcome. *)
Lemma capturar_lead_cases lead w :
  (fst (capturar_lead lead w) = Ok LEAD_STORED
   /\ appendable w /\ utf8_encodable (lead_line lead) = true
   /\ records (snd (capturar_lead lead w)) = records w ++ [lead_received lead]
   /\ exists readable,
        files (snd (capturar_lead lead w))
        = <[LEADS_FILE := Regular readable true (file_text w LEADS_FILE ++ lead_line lead)]>
            (files w))
  \/ (fst (capturar_lead lead w) = Raise SAVE_FAILED
      /\ appendable w /\ utf8_encodable (lead_line lead) = false
      /\ records (snd (capturar_lead lead w))
         = records w
           ++ [lead_received lead;
               (ERROR, u "❌ ERRO ao salvar lead: " ++ exc_str (UnicodeEncodeError (lead_line lead)))]
      /\ exists readable,
           files (snd (capturar_lead lead w))
           = <[LEADS_FILE := Regular readable true (file_text w LEADS_FILE)]> (files w))
  \/ (fst (capturar_lead lead w) = Raise SAVE_FAILED
      /\ ~ appendable w
      /\ (exists e,
            opened_for_append LEADS_FILE (files w !! LEADS_FILE) = Raise e
            /\ records (snd (capturar_lead lead w))
               = records w
                 ++ [lead_received lead; (ERROR, u "❌ ERRO ao salvar lead: " ++ exc_str e)])
      /\ files (snd (capturar_lead lead w)) = files w).
Proof.
  rewrite capturar_lead_eq. cbv zeta. unfold appendable, file_text, lead_received.
  destruct (files w !! LEADS_FILE) as [[r wr c| |data|[|]]|] eqn:Hf; cbn [opened_for_append].
  - destruct wr.
    + destruct (utf8_encodable (lead_line lead)); [left|right; left]; fields;
        (split; [reflexivity|]); (split; [right; eauto|]); (split; [reflexivity|]);
        (split; [now rewrite <- ?app_assoc|]); eauto.
    + right; right. fields. split; [reflexivity|]. split.
      * intros [H|(r' & c' & H)]; congruence.
      * split; [|reflexivity]. eexists. split; [reflexivity|]. now rewrite <- app_assoc.
  - right; right. fields. split; [reflexivity|]. split.
    + intros [H|(r' & c' & H)]; congruence.
    + split; [|reflexivity]. eexists. split; [reflexivity|]. now rewrite <- app_assoc.
  - right; right. fields. split; [reflexivity|]. split.
    + intros [H|(r' & c' & H)]; congruence.
    + split; [|reflexivity]. eexists. split; [reflexivity|]. now rewrite <- app_assoc.
  - right; right. fields. split; [reflexivity|]. split.
    + intros [H|(r' & c' & H)]; congruence.
    + split; [|reflexivity]. eexists. split; [reflexivity|]. now rewrite <- app_assoc.
  - right; right. fields. split; [reflexivity|]. split.
    + intros [H|(r' & c' & H)]; congruence.
    + split; [|reflexivity]. eexists. split; [reflexivity|]. now rewrite <- app_assoc.
  - destruct (utf8_encodable (lead_line lead)); [left|right; left]; fields;
      (split; [reflexivity|]); (split; [left; reflexivity|]); (split; [reflexivity|]);
      (split; [now rewrite <- ?app_assoc|]); eauto.
Qed.


(** X17. When the lead file cannot be opened for appending (it may not be
    written, or the path is a directory), the handler raises the 500
    [HTTPException], logs the lead and then the error of [open], and leaves
    every file as it was. *)
Theorem capturar_lead_unwritable lead w :
  ~ appendable w ->
  exists e,
    opened_for_append LEADS_FILE (files w !! LEADS_FILE) = Raise e
    /\ capturar_lead lead w
       = (Raise SAVE_FAILED,
          logged ERROR (u "❌ ERRO ao salvar lead: " ++ exc_str e)
            (logged INFO (snd (lead_received lead)) w)).
Proof.
  intros Hn. rewrite capturar_lead_eq. cbv zeta. unfold appendable in Hn.
  unfold SAVE_FAILED, lead_received. cbn [snd].
  destruct (files w !! LEADS_FILE) as [[r wr c| |data|[|]]|] eqn:Hf; cbn [opened_for_append].
  - destruct wr; [exfalso; apply Hn; right; eauto|]. eexists. split; reflexivity.
  - eexists. split; reflexivity.
  - eexists. split; reflexivity.
  - eexists. split; reflexivity.
  - eexists. split; reflexivity.
  - exfalso. apply Hn. left. reflexivity.
Qed.

Lemma capturar_lead_unwritable_witness :
  let w := mkWorld {[ LEADS_FILE := Regular true false [] ]} ∅ [] None None in
  exists e,
    opened_for_append LEADS_FILE (files w !! LEADS_FILE) = Raise e
    /\ capturar_lead Sample.ana w
       = (Raise SAVE_FAILED,
          logged ERROR (u "❌ ERRO ao salvar lead: " ++ exc_str e)
            (logged INFO (snd (lead_received Sample.ana)) w)).
Proof.
  intros w. apply (capturar_lead_unwritable Sample.ana w).
  intros [H|(r & c & H)]; vm_compute in H; discriminate.
Defined.

(** X18. A lead whose text UTF-8 cannot encode (a lone surrogate in the
    name, say) is refused with the 500 [HTTPException] after the file has
    been opened: the lead file exists afterwards, created if it was
    missing, and holds the text it held before. *)
Theorem capturar_lead_unencodable lead w :
  appendable w ->
  utf8_encodable (lead_line lead) = false ->
  fst (capturar_lead lead w) = Raise SAVE_FAILED
  /\ (exists readable,
        files (snd (capturar_lead lead w)) !! LEADS_FILE
        = Some (Regular readable true (file_text w LEADS_FILE)))
  /\ forall p, p <> LEADS_FILE -> files (snd (capturar_lead lead w)) !! p = files w !! p.
Proof.
  intros Ha He.
  destruct (capturar_lead_cases lead w)
    as [(_ & _ & E & _)|[(E & _ & _ & _ & r & Hf)|(_ & Hn & _)]];
    [congruence| |contradiction].
  split; [exact E|]. rewrite Hf. split.
  - exists r. apply lookup_insert_eq.
  - intros p Hp. apply lookup_insert_ne. congruence.
Qed.

Lemma capturar_lead_unencodable_witness :
  let lead := mkLead [55296] (u "ana@example.com") in
  fst (capturar_lead lead Sample.serving) = Raise SAVE_FAILED
  /\ (exists readable,
        files (snd (capturar_lead lead Sample.serving)) !! LEADS_FILE
        = Some (Regular readable true (file_text Sample.serving LEADS_FILE)))
  /\ forall p, p <> LEADS_FILE ->
               files (snd (capturar_lead lead Sample.serving)) !! p = files Sample.serving !! p.
Proof.
  intros lead. apply (capturar_lead_unencodable lead Sample.serving).
  - left. reflexivity.
  - vm_compute. reflexivity.
Defined.

Lemma capturar_lead_append_text lead w :
  file_text (snd (capturar_lead lead w)) LEADS_FILE
  = file_text w LEADS_FILE
    ++ match fst (capturar_lead lead w) with Ok _ => lead_line lead | Raise _ => [] end
  /\ forall p, p <> LEADS_FILE -> files (snd (capturar_lead lead w)) !! p = files w !! p.
Proof.
  destruct (capturar_lead_cases lead w)
    as [(E & _ & _ & _ & r & Hf)|[(E & _ & _ & _ & r & Hf)|(E & _ & _ & Hf)]];
    rewrite E; unfold file_text at 1; rewrite Hf.
  - rewrite lookup_insert_eq. split; [reflexivity|].
    intros p Hp. apply lookup_insert_ne. congruence.
  - rewrite lookup_insert_eq, app_nil_r. split; [reflexivity|].
    intros p Hp. apply lookup_insert_ne. congruence.
  - rewrite app_nil_r. split; reflexivity.
Qed.


(** X20. The handler logs the lead, name and e-mail, before it tries to
    store it: that record is in the log whatever the outcome, alone when
    the lead was stored and followed by one error record when it was not. *)
Theorem capturar_lead_logs_lead lead w :
  exists rest,
    records (snd (capturar_lead lead w)) = records w ++ lead_received lead :: rest
    /\ match fst (capturar_lead lead w) with
       | Ok _ => rest = []
       | Raise _ => exists msg, rest = [(ERROR, msg)]
       end.
Proof.
  destruct (capturar_lead_cases lead w)
    as [(E & _ & _ & Hr & _)|[(E & _ & _ & Hr & _)|(E & _ & (e & _ & Hr) & _)]];
    rewrite E, Hr; eexists; split; try reflexivity; eauto.
Qed.





Lemma newlines_app s t : newlines (s ++ t) = (newlines s + newlines t)%nat.
Proof. unfold newlines. now rewrite List.filter_app, length_app. Qed.

(** X23. A stored lead whose name and e-mail hold no newline adds exactly
    one line to the lead file: the file has one newline more than before,
    and it is the last character. *)
Theorem capturar_lead_one_line lead w :
  fst (capturar_lead lead w) = Ok LEAD_STORED ->
  newlines (name lead) = 0%nat ->
  newlines (email lead) = 0%nat ->
  newlines (file_text (snd (capturar_lead lead w)) LEADS_FILE)
  = S (newlines (file_text w LEADS_FILE))
  /\ last (file_text (snd (capturar_lead lead w)) LEADS_FILE) = Some 10.
Proof.
  intros E Hn He.
  destruct (capturar_lead_append_text lead w) as [Ht _]. rewrite Ht, E.
  unfold lead_line. rewrite !newlines_app, Hn, He. split.
  - change (newlines (u "Nome: ")) with 0%nat.
    change (newlines (u ", Email: ")) with 0%nat.
    change (newlines LF) with 1%nat. lia.
  - rewrite !app_assoc. apply last_snoc.
Qed.

Lemma capturar_lead_one_line_witness :
  newlines (file_text (snd (capturar_lead Sample.ana Sample.serving)) LEADS_FILE)
  = S (newlines (file_text Sample.serving LEADS_FILE))
  /\ last (file_text (snd (capturar_lead Sample.ana Sample.serving)) LEADS_FILE) = Some 10.
Proof.
  apply (capturar_lead_one_line Sample.ana Sample.serving); vm_compute; reflexivity.
Defined.

(** With no room to create the lead file, the lead is not stored. *)
Example capturar_lead_no_room :
  let w := mkWorld {[ LEADS_FILE := Missing ReadOnlyDirectory ]} ∅ [] None None in
  fst (capturar_lead Sample.ana w) = Raise SAVE_FAILED /\ files (snd (capturar_lead Sample.ana w)) = files w.
Proof. split; vm_compute; reflexivity. Qed.






(** ** More on the prompt *)

(** X25. With the same knowledge, two questions get the same prompt only if
    they are the same question. *)
Theorem compose_prompt_injective base q1 q2 :
  compose_prompt base q1 = compose_prompt base q2 -> q1 = q2.
Proof.
  rewrite !compose_prompt_eq. intros H.
  assert (E : PROMPT_HEAD ++ base ++ PROMPT_MIDDLE ++ q1 ++ PROMPT_TAIL
              = PROMPT_HEAD ++ base ++ PROMPT_MIDDLE ++ q2 ++ PROMPT_TAIL) by congruence.
  apply app_inv_head in E. apply app_inv_head in E. apply app_inv_head in E.
  now apply app_inv_tail in E.
Qed.

Lemma compose_prompt_injective_witness : u "Oi" = u "Oi".
Proof.
  apply (compose_prompt_injective Sample.knowledge (u "Oi") (u "Oi")).
  reflexivity.
Defined.

(** X26. The prompt does not delimit the knowledge from the question: text
    of the question that repeats the template's own separator reads, in
    the prompt, like the end of the knowledge and the start of another
    question. *)
Theorem compose_prompt_ambiguous a b c :
  compose_prompt (a ++ PROMPT_MIDDLE ++ b) c = compose_prompt a (b ++ PROMPT_MIDDLE ++ c).
Proof.
  rewrite !compose_prompt_eq. f_equal. now rewrite <- !app_assoc.
Qed.
